(** * Order lifecycle, balance ledger and exchange adapter of the
      crypto-trading service, embedded in Rocq.

    The TypeScript sources modelled here are
    - [utils/tradingUtils.ts]        (tick/lot normalisation),
    - [utils/tradingServiceUtils.ts] (balance reservation, trade record,
                                      status reconciliation),
    - [services/cexService.ts]       (exchange adapter),
    - [services/tradingService.ts]   (order creation and cancellation).

    Modelling choices:
    - JavaScript numbers are IEEE-754 binary64 values; they are Rocq's
      primitive floats, so every arithmetic step rounds exactly as in the
      running program. [Number::toString], [toFixed], [parseFloat] and
      [Math.floor] follow ECMAScript on the exact value of the float.
    - The tables are explicit state. Code that runs under a Sequelize
      transaction threads the transaction's view of the tables; commit
      installs the view, rollback discards it. A row that leaves out a
      column the model requires is refused when it is created; other
      storage failures (a query or a save that rejects) are not modelled.
    - A module knows the names it imports. [utils/tradingServiceUtils.ts]
      uses Sequelize's [Op] without importing it, so reading it throws.
    - The exchange is a record of answers to the HTTP requests the adapter
      issues; request signing and timestamps do not influence any result
      and are left out.
    - [async]/[await] is sequential here: one call runs at a time. *)

From Stdlib Require Import ZArith Uint63 Ascii String.
From Stdlib Require Import Floats.PrimFloat Floats.FloatOps Floats.SpecFloat.
From Stdlib Require Floats.FloatAxioms.
From stdpp Require Import gmap strings list pretty.

Set Warnings "-inexact-float".

Local Open Scope Z_scope.

(** ** JavaScript number primitives used by the sources *)

Module Js.

(** [v * 10^p] for the fraction [v = a / b], again as a fraction. *)
Definition scale10 (a b p : Z) : Z * Z :=
  if 0 <=? p then (a * 10 ^ p, b) else (a, b * 10 ^ (- p)).

(** The binary64 value nearest to [a / b] (ties to even), for [0 <= a] and
    [0 < b]: what reading a decimal literal yields. *)
Definition of_ratio (a b : Z) : float :=
  if a =? 0 then zero else
  let e0 := Z.log2 a - Z.log2 b - 53 in
  let hi := if 0 <=? e0 then a / (b * 2 ^ e0) else (a * 2 ^ (- e0)) / b in
  let e1 := if 2 ^ 53 <=? hi then e0 + 1 else e0 in
  let e := Z.max e1 (-1074) in
  let n := if 0 <=? e then a else a * 2 ^ (- e) in
  let d := if 0 <=? e then b * 2 ^ e else b in
  let q := n / d in
  let r := n mod d in
  let q' := if (d <? 2 * r) || ((d =? 2 * r) && Z.odd q) then q + 1 else q in
  Z.ldexp (of_uint63 (Uint63.of_Z q')) e.

(** The exact value of a finite float: its sign and magnitude [num / den]. *)
Definition exact (x : float) : option (bool * Z * Z) :=
  match Prim2SF x with
  | S754_zero s => Some (s, 0, 1)
  | S754_finite s m e =>
      Some (s, if 0 <=? e then Zpos m * 2 ^ e else Zpos m,
               if 0 <=? e then 1 else 2 ^ (- e))
  | _ => None
  end.

(** [Math.floor]. *)
Definition Math_floor (x : float) : float :=
  match Prim2SF x with
  | S754_finite s m e =>
      if 0 <=? e then x else
      let q := Zpos m / 2 ^ (- e) in
      let whole := Zpos m mod 2 ^ (- e) =? 0 in
      if s then (- of_uint63 (Uint63.of_Z (if whole then q else q + 1)))%float
      else of_uint63 (Uint63.of_Z q)
  | _ => x
  end.

(** [Math.pow(10, d)] for a natural exponent. *)
Definition Math_pow10 (d : nat) : float := of_ratio (10 ^ Z.of_nat d) 1.

(** *** Number::toString (radix 10) *)

(** Least [n], searching upwards from a lower estimate, with [a / b < 10^n]. *)
Fixpoint find_n (fuel : nat) (a b n : Z) : Z :=
  match fuel with
  | O => n
  | S k =>
      let '(x, y) := scale10 a b (- n) in
      if x <? y then n else find_n k a b (n + 1)
  end.

Definition decimal_exponent (a b : Z) : Z :=
  find_n 8 a b ((Z.log2 a - Z.log2 b) * 30103 / 100000 - 1).

(** Does the decimal [s * 10^p] read back as the float [x]? *)
Definition reads_as (x : float) (s p : Z) : bool :=
  let '(a, b) := scale10 s 1 p in (of_ratio a b =? x)%float.

(** The shortest digit string [s] (with [k] digits, tried in increasing
    order) such that [s * 10^(n-k)] reads back as [x]; among two candidates
    of one length the one nearer to [x] wins. *)
Fixpoint shortest (fuel : nat) (x : float) (a b n k : Z) : Z * Z :=
  match fuel with
  | O => (0, k)
  | S fuel' =>
      let '(u, v) := scale10 a b (k - n) in
      let lo := u / v in
      let r := u mod v in
      let hi := lo + 1 in
      let lo_ok := reads_as x lo (n - k) in
      let hi_ok := reads_as x hi (n - k) in
      let lo_near := (2 * r <? v) || ((2 * r =? v) && Z.even lo) in
      if lo_ok && (negb hi_ok || lo_near) then (lo, k)
      else if hi_ok then (hi, k)
      else shortest fuel' x a b n (k + 1)
  end.

Definition zeros (n : Z) : string := String.concat "" (repeat "0"%string (Z.to_nat n)).

Definition str_take (n : Z) (s : string) : string := String.substring 0 (Z.to_nat n) s.
Definition str_drop (n : Z) (s : string) : string :=
  String.substring (Z.to_nat n) (String.length s - Z.to_nat n) s.

Definition format_digits (s k n : Z) : string :=
  let ds := pretty s in
  if (k <=? n) && (n <=? 21) then ds +:+ zeros (n - k)
  else if (0 <? n) && (n <=? 21) then str_take n ds +:+ "." +:+ str_drop n ds
  else if (-6 <? n) && (n <=? 0) then "0." +:+ zeros (- n) +:+ ds
  else
    let e := n - 1 in
    let tail := "e" +:+ (if e <? 0 then "-" else "+") +:+ pretty (Z.abs e) in
    if k =? 1 then ds +:+ tail
    else str_take 1 ds +:+ "." +:+ str_drop 1 ds +:+ tail.

Definition toString_pos (x : float) (a b : Z) : string :=
  let n := decimal_exponent a b in
  let '(s, k) := shortest 17 x a b n 1 in
  if s =? 10 ^ k then format_digits (10 ^ (k - 1)) k (n + 1)
  else format_digits s k n.

Definition Number_toString (x : float) : string :=
  match exact x with
  | None => if is_nan x then "NaN"
            else if (x <? 0)%float then "-Infinity" else "Infinity"
  | Some (s, a, b) =>
      if a =? 0 then "0"
      else if s then "-" +:+ toString_pos (abs x) a b
      else toString_pos x a b
  end.

(** *** Number.prototype.toFixed *)

Definition Number_toFixed (x : float) (f : nat) : string :=
  match exact x with
  | None => Number_toString x
  | Some (s, a, b) =>
      let sign := if s && negb (a =? 0) then "-" else ""%string in
      if b * 10 ^ 21 <=? a then sign +:+ Number_toString (abs x)
      else
        let '(u, v) := scale10 a b (Z.of_nat f) in
        let n := if v <=? 2 * (u mod v) then u / v + 1 else u / v in
        let m := pretty n in
        let m :=
          if (f =? 0)%nat then m
          else
            let m' := zeros (Z.of_nat f + 1 - Z.of_nat (String.length m)) +:+ m in
            let k := Z.of_nat (String.length m') in
            str_take (k - Z.of_nat f) m' +:+ "." +:+ str_drop (k - Z.of_nat f) m' in
        sign +:+ m
  end.

(** *** parseFloat *)

Definition is_digit (c : ascii) : bool :=
  let n := Z.of_N (N_of_ascii c) in (48 <=? n) && (n <=? 57).

Definition is_space (c : ascii) : bool :=
  let n := Z.of_N (N_of_ascii c) in
  (n =? 32) || ((9 <=? n) && (n <=? 13)).

Fixpoint skip_spaces (s : string) : string :=
  match s with
  | String c s' => if is_space c then skip_spaces s' else s
  | EmptyString => s
  end.

(** Reads a run of digits, extending the value [acc]; returns the value,
    the number of digits read and the rest of the input. *)
Fixpoint read_digits (acc cnt : Z) (s : string) : Z * Z * string :=
  match s with
  | String c s' =>
      if is_digit c
      then read_digits (10 * acc + (Z.of_N (N_of_ascii c) - 48)) (cnt + 1) s'
      else (acc, cnt, s)
  | EmptyString => (acc, cnt, s)
  end.

Definition read_sign (s : string) : bool * string :=
  match s with
  | String "-" s' => (true, s')
  | String "+" s' => (false, s')
  | _ => (false, s)
  end.

Definition read_exponent (s : string) : Z :=
  match s with
  | String c s' =>
      if (Ascii.eqb c "e" || Ascii.eqb c "E")%bool then
        let '(neg, s'') := read_sign s' in
        let '(e, cnt, _) := read_digits 0 0 s'' in
        if cnt =? 0 then 0 else if neg then - e else e
      else 0
  | EmptyString => 0
  end.

Definition parseFloat (str : string) : float :=
  let '(neg, s) := read_sign (skip_spaces str) in
  let signed (x : float) := if neg then (- x)%float else x in
  if String.prefix "Infinity" s then signed infinity
  else
    let '(i, ci, s1) := read_digits 0 0 s in
    let '(m, cf, s2) :=
      match s1 with
      | String "." s' => read_digits i 0 s'
      | _ => (i, 0, s1)
      end in
    if ci + cf =? 0 then nan
    else
      let '(a, b) := scale10 m 1 (read_exponent s2 - cf) in
      signed (of_ratio a b).

(** [String.prototype.includes]. *)
Fixpoint includes (needle hay : string) : bool :=
  String.prefix needle hay ||
  match hay with
  | String _ hay' => includes needle hay'
  | EmptyString => false
  end.

(** [str.split('.')[1]]: the text between the first and the second dot. *)
Fixpoint upto_dot (s : string) : string :=
  match s with
  | String "." _ => EmptyString
  | String c s' => String c (upto_dot s')
  | EmptyString => EmptyString
  end.

Fixpoint after_dot (s : string) : string :=
  match s with
  | String "." s' => upto_dot s'
  | String _ s' => after_dot s'
  | EmptyString => EmptyString
  end.

End Js.

(** ** utils/tradingUtils.ts: normalisation to the exchange's increments *)

Module TradingUtils.
Import Js.

(** [countDecimals]: the length of what [value.toString()] shows after the
    decimal point. A string in exponent notation without a point (as for
    [1e-7]) counts as having no decimals. *)
Definition countDecimals (value : float) : nat :=
  if (Math_floor value =? value)%float then 0%nat
  else
    let valueStr := Number_toString value in
    if includes "." valueStr then String.length (after_dot valueStr)
    else 0%nat.

(** [adjustPriceToTickSize]. *)
Definition adjustPriceToTickSize (price tickSize : float) : float :=
  let tickSizeDecimals := countDecimals tickSize in
  let priceMultiplier := Math_pow10 tickSizeDecimals in
  let adjustedPrice :=
    (Math_floor (price * priceMultiplier / (tickSize * priceMultiplier)) * tickSize)%float in
  parseFloat (Number_toFixed adjustedPrice tickSizeDecimals).

(** [adjustQuantityToLotSize]. *)
Definition adjustQuantityToLotSize (quantity stepSize : float) : float :=
  let stepSizeDecimals := countDecimals stepSize in
  let multiplier := Math_pow10 stepSizeDecimals in
  let adjustedQuantity :=
    (Math_floor ((quantity * multiplier) / (stepSize * multiplier)) * stepSize)%float in
  parseFloat (Number_toFixed adjustedQuantity stepSizeDecimals).

End TradingUtils.

(** ** Data model (models/*.ts) *)

Inductive OrderType := BUY | SELL.
Inductive ExecutionType := MARKET | LIMIT.

(** The payload of the exchange's order endpoints ([CEXOrderResponse]). *)
Record CEXOrderResponse := mkResponse {
  resp_orderId : string;
  resp_status : string;
  resp_executedQty : option string;
  resp_price : option string }.

(** What the [status] attribute of an order object holds. The declared
    type is a status name; the loop of [syncOrderStatuses] assigns the
    whole exchange payload to it, so the attribute has both shapes. *)
Inductive StatusValue :=
  | StatusName (s : string)
  | StatusPayload (r : CEXOrderResponse).

Record MarketPair := mkPair { baseAsset : string; quoteAsset : string }.

Record TradingOrder := mkOrder {
  id : Z;
  userId : Z;
  marketPairId : Z;
  orderType : OrderType;
  executionType : ExecutionType;
  price : option float;          (* number | null *)
  quantity : float;
  status : StatusValue;
  externalOrderId : option string }.

Record TradeHistory := mkTrade {
  th_userId : Z;
  th_orderId : Z;
  th_marketPairId : Z;
  th_baseAsset : string;
  th_quoteAsset : string;
  th_price : float;
  th_quantity : float;
  th_total : option float;
  th_fee : option float;
  th_feeCurrency : option string;
  th_externalTradeId : string }.

Record CryptoBalance := mkBalance {
  availableBalance : float;
  reservedBalance : float }.

(** The tables. Balance rows are unique per (userId, tokenSymbol); a numeric
    column holds the number last saved, so reading it back and applying
    [parseFloat] yields that number. Orders and trades are kept in insertion
    order. *)
Record Db := mkDb {
  balances : gmap (Z * string) CryptoBalance;
  orders : list TradingOrder;
  trades : list TradeHistory;
  marketPairs : gmap Z MarketPair }.

Definition set_balances (b : gmap (Z * string) CryptoBalance) (db : Db) : Db :=
  mkDb b (orders db) (trades db) (marketPairs db).
Definition set_orders (o : list TradingOrder) (db : Db) : Db :=
  mkDb (balances db) o (trades db) (marketPairs db).
Definition set_trades (t : list TradeHistory) (db : Db) : Db :=
  mkDb (balances db) (orders db) t (marketPairs db).

Definition set_status (s : StatusValue) (o : TradingOrder) : TradingOrder :=
  mkOrder (id o) (userId o) (marketPairId o) (orderType o) (executionType o)
          (price o) (quantity o) s (externalOrderId o).
Definition set_externalOrderId (e : option string) (o : TradingOrder) : TradingOrder :=
  mkOrder (id o) (userId o) (marketPairId o) (orderType o) (executionType o)
          (price o) (quantity o) (status o) e.

(** Accessors for use where a parameter carries the attribute's name. *)
Definition order_price (o : TradingOrder) : option float := price o.
Definition order_userId (o : TradingOrder) : Z := userId o.

(** [order.status === name] and its negation. *)
Definition status_is (name : string) (s : StatusValue) : bool :=
  match s with
  | StatusName n => String.eqb n name
  | StatusPayload _ => false
  end.

(** ** Errors and effects *)

(** [CustomError(message, status)]; the HTTP status is called [code] here
    because [status] names the order attribute. *)
Record CustomError := mkCustomError { message : string; code : Z }.

(** What a [throw] carries: a [CustomError], or any other [Error] with its
    message (a rejected HTTP call, a [TypeError]). *)
Inductive Thrown :=
  | Custom (e : CustomError)
  | OtherError (msg : string).

Inductive outcome (A : Type) :=
  | Return (a : A)
  | Throw (t : Thrown).
Arguments Return {A} a.
Arguments Throw {A} t.

(** Code running inside a database transaction: it threads the
    transaction's view of the tables and may throw. A throw abandons the
    view; the caller decides between commit and rollback. *)
Definition Tx (A : Type) : Type := Db -> outcome (A * Db).

Definition ret {A} (a : A) : Tx A := fun db => Return (a, db).
Definition bind {A B} (m : Tx A) (k : A -> Tx B) : Tx B :=
  fun db => match m db with
            | Return (a, db') => k a db'
            | Throw t => Throw t
            end.
Definition throw {A} (t : Thrown) : Tx A := fun _ => Throw t.
Definition throwCustom {A} (msg : string) (c : Z) : Tx A :=
  throw (Custom (mkCustomError msg c)).
Definition lift {A} (o : outcome A) : Tx A :=
  fun db => match o with
            | Return a => Return (a, db)
            | Throw t => Throw t
            end.
Definition get : Tx Db := fun db => Return (db, db).
Definition modify (f : Db -> Db) : Tx unit := fun db => Return (tt, f db).

(** [try { m } catch (err) { h err }], for a body that throws before it
    writes: the handler resumes from the state at the [try]. *)
Definition try_catch {A} (m : Tx A) (h : Thrown -> Tx A) : Tx A :=
  fun db => match m db with
            | Return r => Return r
            | Throw t => h t db
            end.

Declare Scope tx_scope.
Delimit Scope tx_scope with tx.
Notation "x <- m ;; k" := (bind m (fun x => k))
  (at level 20, m at level 99, k at level 200, only parsing) : tx_scope.
Notation "m ;;; k" := (bind m (fun _ => k))
  (at level 100, k at level 200, right associativity, only parsing) : tx_scope.
Local Open Scope tx_scope.

(** [error instanceof CustomError ? error : new CustomError(prefix + error.message, 500)]. *)
Definition asCustomError (prefix : string) (t : Thrown) : CustomError :=
  match t with
  | Custom e => e
  | OtherError msg => mkCustomError (prefix +:+ msg) 500
  end.

(** JavaScript truthiness of a number, and [x || '0'] followed by
    [parseFloat] on a numeric column. *)
Definition falsy (x : float) : bool := is_zero x || is_nan x.
Definition parseFloat_or0 (x : float) : float := if falsy x then 0%float else x.

(** [s || fallback] for an optional string: undefined and the empty string
    are falsy. *)
Definition str_or (s : option string) (fallback : string) : string :=
  match s with
  | Some (String c r) => String c r
  | _ => fallback
  end.

(** [config.trading.fee]. *)
Definition TRADING_FEE : float := 0.001%float.

(** *** Table access (Sequelize calls) *)

Definition findBalance (uid : Z) (tokenSymbol : string) : Tx (option CryptoBalance) :=
  fun db => Return (balances db !! (uid, tokenSymbol), db).

Definition saveBalance (uid : Z) (tokenSymbol : string) (b : CryptoBalance) : Tx unit :=
  modify (fun db => set_balances (<[(uid, tokenSymbol) := b]> (balances db)) db).

(** [CryptoBalance.findOrCreate] with zero defaults. *)
Definition findOrCreateBalance (uid : Z) (tokenSymbol : string) : Tx CryptoBalance :=
  fun db =>
    match balances db !! (uid, tokenSymbol) with
    | Some b => Return (b, db)
    | None =>
        let b := mkBalance 0 0 in
        Return (b, set_balances (<[(uid, tokenSymbol) := b]> (balances db)) db)
    end.

Definition nextOrderId (db : Db) : Z :=
  1 + foldr (fun o m => Z.max (id o) m) 0 (orders db).

(** [order.save()]: the row with the order's id is replaced. *)
Definition saveOrder (o : TradingOrder) : Tx unit :=
  modify (fun db =>
    set_orders (map (fun o' => if id o' =? id o then o else o') (orders db)) db).

Definition insertOrder (o : TradingOrder) : Tx unit :=
  modify (fun db => set_orders (orders db ++ [o]) db).

(** The columns of a trade row that the model declares [allowNull: false]
    without a default and that the given row leaves out. *)
Definition missingColumns (t : TradeHistory) : list string :=
  match th_total t with Some _ => [] | None => ["total"%string] end
  ++ match th_fee t with Some _ => [] | None => ["fee"%string] end
  ++ match th_feeCurrency t with Some _ => [] | None => ["feeCurrency"%string] end.

(** The message of the validation error for those columns, one item per
    column, joined by a comma and a line feed. *)
Fixpoint notNullMessage (columns : list string) : string :=
  match columns with
  | [] => EmptyString
  | [c] => "notNull Violation: tradeHistory." +:+ c +:+ " cannot be null"
  | c :: rest =>
      "notNull Violation: tradeHistory." +:+ c +:+ " cannot be null,"
      +:+ String (ascii_of_nat 10) (notNullMessage rest)
  end.

(** [TradeHistory.create]: the row is validated before it is written, so a
    row that leaves out [total], [fee] or [feeCurrency] is refused with a
    validation error and nothing is inserted. *)
Definition insertTrade (t : TradeHistory) : Tx unit :=
  match missingColumns t with
  | [] => modify (fun db => set_trades (trades db ++ [t]) db)
  | missing => throw (OtherError (notNullMessage missing))
  end.

Definition findOrderByPk (oid : Z) (db : Db) : option TradingOrder :=
  List.find (fun o => id o =? oid) (orders db).

(** ** services/cexService.ts: the exchange adapter *)

(** A rejected HTTP call as the adapter inspects it: [error.message],
    [error.response?.status], [error.response?.data?.code] and
    [error.response?.data?.msg]. *)
Record AxiosError := mkAxiosError {
  ax_message : string;
  ax_status : option Z;
  ax_code : option Z;
  ax_msg : option string }.

Inductive Http (A : Type) :=
  | Resolved (data : A)
  | Rejected (e : AxiosError).
Arguments Resolved {A} data.
Arguments Rejected {A} e.

Record Filter := mkFilter {
  filterType : string;
  tickSize : option string;
  stepSize : option string }.

Record SymbolInfo := mkSymbolInfo { filters : list Filter }.

(** The exchange, as seen through the HTTP client: the answer to each
    request the sources issue. *)
Record Exchange := mkExchange {
  tickerPrice : string -> Http (option string);
  exchangeInfo : string -> Http (list SymbolInfo);
  postOrder : OrderType -> string -> ExecutionType -> option float -> float
              -> Http CEXOrderResponse;
  getOrder : option string -> option string -> Http CEXOrderResponse;
  deleteOrder : option string -> string -> Http CEXOrderResponse }.

Module CexService.

(** [error.response?.status || 500]. *)
Definition status_or_500 (e : AxiosError) : Z :=
  match ax_status e with
  | Some s => if s =? 0 then 500 else s
  | None => 500
  end.

Definition placeOrderOnCEX (ex : Exchange) (orderType : OrderType) (symbol : string)
    (executionType : ExecutionType) (price : option float) (quantity : float)
  : outcome CEXOrderResponse :=
  let price_param := match executionType with LIMIT => price | MARKET => None end in
  match postOrder ex orderType symbol executionType price_param quantity with
  | Resolved data => Return data
  | Rejected error =>
      Throw (Custom (mkCustomError
        (str_or (ax_msg error) "Failed to place order on Binance")
        (status_or_500 error)))
  end.

Definition getOrderStatusFromCEX (ex : Exchange) (orderId : option string)
    (symbol : option string) : outcome CEXOrderResponse :=
  match getOrder ex orderId symbol with
  | Resolved data => Return data
  | Rejected error =>
      Throw (Custom (mkCustomError
        (str_or (ax_msg error) "Failed to fetch order status from Binance")
        (status_or_500 error)))
  end.

Definition cancelOrderOnCEX (ex : Exchange) (orderId : option string)
    (symbol : string) : outcome CEXOrderResponse :=
  match deleteOrder ex orderId symbol with
  | Resolved data => Return data
  | Rejected error =>
      match ax_code error with
      | Some (-2011) =>
          Throw (Custom (mkCustomError "Order not found or already executed" 404))
      | Some (-2013) =>
          Throw (Custom (mkCustomError "Order already finished (filled or canceled)" 404))
      | _ =>
          Throw (Custom (mkCustomError
            (str_or (ax_msg error) "Failed to cancel order on Binance")
            (status_or_500 error)))
      end
  end.

End CexService.

(** ** utils/tradingServiceUtils.ts *)

Module TradingServiceUtils.
Import Js CexService.

(** [validateUserBalance]: checks the funds an order needs and moves them
    from the available to the reserved column of the balance row. The final
    [catch] rethrows a [CustomError] unchanged, and nothing else is thrown
    by the body. *)
Definition validateUserBalance (userId : Z) (marketPair : MarketPair)
    (orderType : OrderType) (price quantity : float) : Tx unit :=
  if userId =? 0 then throwCustom "Invalid parameters for balance validation" 400 else
  let validPrice := price in
  if is_nan validPrice || (validPrice <=? 0)%float
  then throwCustom "Invalid price for order" 400 else
  let validQuantity := quantity in
  if is_nan validQuantity || (validQuantity <=? 0)%float
  then throwCustom "Invalid quantity" 400 else
  match orderType with
  | BUY =>
      let tradeAmount := (validPrice * validQuantity)%float in
      let feeAmount := (tradeAmount * TRADING_FEE)%float in
      let totalAmount := (tradeAmount + feeAmount)%float in
      balance <- findBalance userId (quoteAsset marketPair) ;;
      match balance with
      | None =>
          throwCustom ("Insufficient " +:+ quoteAsset marketPair +:+ " balance") 400
      | Some balance =>
          let availableBalance := parseFloat_or0 (availableBalance balance) in
          if (availableBalance <? totalAmount)%float then
            throwCustom ("Insufficient " +:+ quoteAsset marketPair
                         +:+ " balance. Required: " +:+ Number_toString totalAmount
                         +:+ ", Available: " +:+ Number_toString availableBalance) 400
          else
            saveBalance userId (quoteAsset marketPair)
              (mkBalance (availableBalance - totalAmount)
                         (parseFloat_or0 (reservedBalance balance) + totalAmount))
      end
  | SELL =>
      balance <- findBalance userId (baseAsset marketPair) ;;
      match balance with
      | None =>
          throwCustom ("Insufficient " +:+ baseAsset marketPair +:+ " balance") 400
      | Some balance =>
          let availableBalance := parseFloat_or0 (availableBalance balance) in
          if (availableBalance <? validQuantity)%float then
            throwCustom ("Insufficient " +:+ baseAsset marketPair
                         +:+ " balance. Required: " +:+ Number_toString validQuantity
                         +:+ ", Available: " +:+ Number_toString availableBalance) 400
          else
            saveBalance userId (baseAsset marketPair)
              (mkBalance (availableBalance - validQuantity)
                         (parseFloat_or0 (reservedBalance balance) + validQuantity))
      end
  end.

Record SyncDetails := mkSyncDetails {
  sd_userId : Z;
  sd_baseAsset : string;
  sd_quoteAsset : string;
  baseAmount : float;
  quoteAmount : float;
  sd_price : float;
  sd_quantity : float;
  fee : float;
  sd_orderId : Z;
  tradeHistoryId : Z }.

(** [order.price && order.price > 0]. *)
Definition usable_price (p : option float) : bool :=
  match p with
  | Some x => negb (falsy x) && (0 <? x)%float
  | None => false
  end.

(** [createTradeHistory]: appends the trade record and returns the amounts
    by which the trade changes the base and the quote asset. *)
Definition createTradeHistory (userId marketPairId orderId : Z)
    (baseAsset quoteAsset : string) (price quantity : float)
    (externalTradeId : string) : Tx SyncDetails :=
  try_catch
    (db <- get ;;
     match findOrderByPk orderId db with
     | None => throwCustom "Order not found when creating trade history" 404
     | Some order =>
         effectivePrice <-
           (if falsy price || (price <=? 0)%float then
              match order_price order with
              | Some p => if usable_price (Some p) then ret p
                          else throwCustom "Cannot process trade without a valid price" 500
              | None => throwCustom "Cannot process trade without a valid price" 500
              end
            else ret price) ;;
         let total := (effectivePrice * quantity)%float in
         let fee := (total * TRADING_FEE)%float in
         let '(baseAmount, quoteAmount) :=
           match orderType order with
           | BUY => (quantity, (- (total + fee))%float)
           | SELL => ((- quantity)%float, (total - fee)%float)
           end in
         let tradeHistoryId := 1 + Z.of_nat (length (trades db)) in
         insertTrade (mkTrade userId orderId marketPairId baseAsset quoteAsset
                        effectivePrice quantity (Some total) (Some fee)
                        (Some "USDT"%string) externalTradeId) ;;;
         ret (mkSyncDetails userId baseAsset quoteAsset baseAmount quoteAmount
                effectivePrice quantity fee orderId tradeHistoryId)
     end)
    (fun error =>
       match error with
       | Custom e => throw (Custom e)
       | OtherError _ => throwCustom "Failed to create trade history" 500
       end).








End TradingServiceUtils.

(** ** services/tradingService.ts *)

Module TradingService.
Import Js CexService TradingUtils TradingServiceUtils.

(** Outcome of a service call: the promise's value or the [CustomError] it
    rejects with, and the committed tables. *)
Inductive Settled (A : Type) :=
  | Fulfilled (a : A)
  | Failed (e : CustomError).
Arguments Fulfilled {A} a.
Arguments Failed {A} e.

(** Runs a body inside one transaction: commit when it returns; when it
    throws, roll back (the tables stay as they were) and reject with the
    error, wrapped unless it is a [CustomError]. *)
Definition inTransaction {A} (prefix : string) (body : Tx A) (db : Db)
  : Settled A * Db :=
  match body db with
  | Return (a, db') => (Fulfilled a, db')
  | Throw t => (Failed (asCustomError prefix t), db)
  end.

(** [ToNumber] of a nullable number: [null] counts as 0. *)
Definition toNumber (p : option float) : float :=
  match p with Some x => x | None => 0%float end.

(** [updateReservedBalance]. *)
Definition updateReservedBalance (userId : Z) (tokenSymbol : string) (amount : float)
  : Tx unit :=
  balance <- findOrCreateBalance userId tokenSymbol ;;
  saveBalance userId tokenSymbol
    (mkBalance (availableBalance balance) (reservedBalance balance + amount)).

(** [updateBalance]. *)
Definition updateBalance (userId : Z) (tokenSymbol : string) (amount : float)
  : Tx unit :=
  balance <- findOrCreateBalance userId tokenSymbol ;;
  saveBalance userId tokenSymbol
    (mkBalance (availableBalance balance + amount) (reservedBalance balance)).

(** [getSymbolInfo] (tradingUtils.ts): the first symbol of the answer, or
    [null] when there is none or the request fails. *)
Definition getSymbolInfo (ex : Exchange) (symbol : string) : option SymbolInfo :=
  match exchangeInfo ex symbol with
  | Resolved (s :: _) => Some s
  | _ => None
  end.

Definition findFilter (name : string) (info : SymbolInfo) : option Filter :=
  List.find (fun f => String.eqb (filterType f) name) (filters info).

(** [parseFloat] of a possibly missing attribute ([undefined] reads as the
    text "undefined"). *)
Definition parseFloat_attr (s : option string) : float :=
  parseFloat (default "undefined"%string s).

(** Step 1 of [createOrder]: input validation. The [orderType] and
    [executionType] checks are carried by the types. *)
Definition validateInput (userId marketPairId : Z) (executionType : ExecutionType)
    (price : option float) (quantity : float) : Tx unit :=
  if userId =? 0 then throwCustom "Invalid or missing userId" 400
  else if marketPairId =? 0 then throwCustom "Market pair not found" 404
  else if match executionType with
          | LIMIT => match price with
                     | Some p => falsy p || (p <=? 0)%float
                     | None => true
                     end
          | MARKET => false
          end
  then throwCustom "Price required for LIMIT orders" 400
  else if falsy quantity || (quantity <=? 0)%float
  then throwCustom "Invalid quantity" 400
  else ret tt.

(** [parseFloat(cexResponse.executedQty || String(adjustedQuantity))] and
    [parseFloat(cexResponse.price || String(adjustedPrice))]. *)
Definition executedQtyOf (cexResponse : CEXOrderResponse) (adjustedQuantity : float) : float :=
  parseFloat (str_or (resp_executedQty cexResponse) (Number_toString adjustedQuantity)).
Definition executedPriceOf (cexResponse : CEXOrderResponse) (adjustedPrice : float) : float :=
  parseFloat (str_or (resp_price cexResponse) (Number_toString adjustedPrice)).

(** Step 10: the amounts by which a fill changes the base and the quote
    balance. *)
Definition fillAmounts (orderType : OrderType) (executedQty executedPrice : float)
  : float * float :=
  match orderType with
  | BUY => (executedQty, (- executedQty * executedPrice)%float)
  | SELL => ((- executedQty)%float, (executedQty * executedPrice)%float)
  end.

(** Steps 10 to 12: settlement of an order the exchange reports FILLED.
    The trade row is created without [total], [fee] and [feeCurrency]. *)
Definition settleFilled (userId marketPairId : Z) (marketPair : MarketPair)
    (orderType : OrderType) (newOrder : TradingOrder) (cexResponse : CEXOrderResponse)
    (adjustedPrice adjustedQuantity : float) : Tx unit :=
  let executedQty := executedQtyOf cexResponse adjustedQuantity in
  let executedPrice := executedPriceOf cexResponse adjustedPrice in
  let '(baseAmount, quoteAmount) := fillAmounts orderType executedQty executedPrice in
  insertTrade (mkTrade userId (id newOrder) marketPairId
                 (baseAsset marketPair) (quoteAsset marketPair)
                 executedPrice executedQty None None None
                 (resp_orderId cexResponse)) ;;;
  updateBalance userId (baseAsset marketPair) baseAmount ;;;
  updateBalance userId (quoteAsset marketPair) quoteAmount.

(** What steps 3 to 5 of [createOrder] establish. *)
Record Prepared := mkPrepared {
  p_marketPair : MarketPair;
  p_symbol : string;
  p_adjustedPrice : float;
  p_adjustedQuantity : float }.

(** Steps 1 to 5: validation, market pair, market price, exchange rules. *)
Definition prepareOrder (ex : Exchange) (userId marketPairId : Z)
    (executionType : ExecutionType) (price : option float) (quantity : float)
  : Tx Prepared :=
  validateInput userId marketPairId executionType price quantity ;;;
  db0 <- get ;;
  match marketPairs db0 !! marketPairId with
  | None => throwCustom "Market pair not found" 404
  | Some marketPair =>
      let symbol := baseAsset marketPair +:+ quoteAsset marketPair in
      executionPrice <-
        match executionType with
        | MARKET =>
            match tickerPrice ex symbol with
            | Rejected error => throw (OtherError (ax_message error))
            | Resolved (Some (String c r)) => ret (parseFloat (String c r))
            | Resolved _ => throwCustom ("Could not get price for " +:+ symbol) 500
            end
        | LIMIT => ret (toNumber price)
        end ;;
      match getSymbolInfo ex symbol with
      | None => throwCustom "Binance symbol info missing" 500
      | Some symbolInfo =>
          match findFilter "PRICE_FILTER" symbolInfo, findFilter "LOT_SIZE" symbolInfo with
          | None, _ =>
              throw (OtherError "Cannot read properties of undefined (reading 'tickSize')")
          | Some _, None =>
              throw (OtherError "Cannot read properties of undefined (reading 'stepSize')")
          | Some priceFilter, Some lotSize =>
              let tickSize := parseFloat_attr (tickSize priceFilter) in
              let stepSize := parseFloat_attr (stepSize lotSize) in
              let adjustedQuantity := adjustQuantityToLotSize quantity stepSize in
              let adjustedPrice :=
                match executionType with
                | LIMIT => adjustPriceToTickSize executionPrice tickSize
                | MARKET => executionPrice
                end in
              ret (mkPrepared marketPair symbol adjustedPrice adjustedQuantity)
          end
      end
  end.

(** Steps 6 to 13: reserve, record the pending order, submit it to the
    exchange, and settle when the exchange reports it FILLED. *)
Definition submitOrder (ex : Exchange) (userId marketPairId : Z)
    (orderType : OrderType) (executionType : ExecutionType) (p : Prepared)
  : Tx TradingOrder :=
  let marketPair := p_marketPair p in
  let adjustedPrice := p_adjustedPrice p in
  let adjustedQuantity := p_adjustedQuantity p in
  validateUserBalance userId marketPair orderType adjustedPrice adjustedQuantity ;;;
  db1 <- get ;;
  let newOrder :=
    mkOrder (nextOrderId db1) userId marketPairId orderType executionType
            (Some adjustedPrice) adjustedQuantity (StatusName "PENDING") None in
  insertOrder newOrder ;;;
  cexResponse <-
    lift (placeOrderOnCEX ex orderType (p_symbol p) executionType
            (Some adjustedPrice) adjustedQuantity) ;;
  let newOrder :=
    set_status (StatusName "PLACED")
      (set_externalOrderId (Some (resp_orderId cexResponse)) newOrder) in
  if String.eqb (resp_status cexResponse) "FILLED" then
    let newOrder := set_status (StatusName "FILLED") newOrder in
    settleFilled userId marketPairId marketPair orderType newOrder cexResponse
                 adjustedPrice adjustedQuantity ;;;
    saveOrder newOrder ;;;
    ret newOrder
  else
    saveOrder newOrder ;;;
    ret newOrder.

Definition createOrder_body (ex : Exchange) (userId marketPairId : Z)
    (orderType : OrderType) (executionType : ExecutionType)
    (price : option float) (quantity : float) : Tx TradingOrder :=
  p <- prepareOrder ex userId marketPairId executionType price quantity ;;
  submitOrder ex userId marketPairId orderType executionType p.

(** [createOrder]. Everything before the transaction starts only reads, so
    the whole body is run against the transaction's view. *)
Definition createOrder (ex : Exchange) (userId marketPairId : Z)
    (orderType : OrderType) (executionType : ExecutionType)
    (price : option float) (quantity : float) (db : Db) : Settled TradingOrder * Db :=
  inTransaction "Failed to place order: "
    (createOrder_body ex userId marketPairId orderType executionType price quantity) db.

Definition thrown_message (t : Thrown) : string :=
  match t with
  | Custom e => message e
  | OtherError msg => msg
  end.

(** Step 2 of [cancelOrder]: what the exchange says about the order. The
    result is the early [return] taken, if any. The adapter throws a
    [CustomError], which has no [response] attribute, so of the handler's
    two tests only the one on the message can hold. *)
Definition checkCexStatus (ex : Exchange) (order : TradingOrder) (symbol : string)
  : Tx (option (string * TradingOrder)) :=
  try_catch
    (cexStatus <- lift (getOrderStatusFromCEX ex (externalOrderId order) (Some symbol)) ;;
     if String.eqb (resp_status cexStatus) "FILLED" then
       let order := set_status (StatusName "FILLED") order in
       saveOrder order ;;;
       ret (Some ("Order already filled"%string, order))
     else if String.eqb (resp_status cexStatus) "CANCELED" then
       let order := set_status (StatusName "CANCELLED") order in
       saveOrder order ;;;
       ret (Some ("Order already canceled"%string, order))
     else ret None)
    (fun err =>
       if includes "does not exist" (thrown_message err) then
         let order := set_status (StatusName "CANCELLED") order in
         saveOrder order ;;;
         ret (Some ("Order not found on Binance, marked canceled"%string, order))
       else throw err).

(** The amount and the asset of step 4 of [cancelOrder]. *)
Definition releaseToken (order : TradingOrder) (marketPair : MarketPair) : string :=
  match orderType order with
  | BUY => quoteAsset marketPair
  | SELL => baseAsset marketPair
  end.

Definition releaseAmount (order : TradingOrder) : float :=
  match orderType order with
  | BUY => (toNumber (price order) * quantity order)%float
  | SELL => quantity order
  end.

Definition cancelOrder_body (ex : Exchange) (userId orderId : Z)
  : Tx (string * TradingOrder) :=
  db0 <- get ;;
  match List.find (fun o => (id o =? orderId) && (order_userId o =? userId)) (orders db0) with
  | None => throwCustom "Order not found or access denied" 404
  | Some order =>
      if negb (status_is "PLACED" (status order))
      then throwCustom "Only active orders can be canceled" 400
      else
        match marketPairs db0 !! marketPairId order with
        | None => throw (OtherError "Cannot read properties of null (reading 'baseAsset')")
        | Some marketPair =>
            let symbol := baseAsset marketPair +:+ quoteAsset marketPair in
            early <- checkCexStatus ex order symbol ;;
            match early with
            | Some result => ret result
            | None =>
                cancelResponse <- lift (cancelOrderOnCEX ex (externalOrderId order) symbol) ;;
                if negb (String.eqb (resp_status cancelResponse) "CANCELED")
                then throwCustom "CEX did not confirm cancellation" 502
                else
                  let order := set_status (StatusName "CANCELLED") order in
                  saveOrder order ;;;
                  let token := releaseToken order marketPair in
                  balance <- findBalance userId token ;;
                  match balance with
                  | Some balance =>
                      saveBalance userId token
                        (mkBalance (availableBalance balance)
                                   (reservedBalance balance - releaseAmount order))
                  | None => ret tt
                  end ;;;
                  ret ("Order canceled successfully"%string, order)
            end
        end
  end.

(** [cancelOrder]. *)
Definition cancelOrder (ex : Exchange) (userId orderId : Z) (db : Db)
  : Settled (string * TradingOrder) * Db :=
  inTransaction "Failed to cancel order: " (cancelOrder_body ex userId orderId) db.

End TradingService.

(** ** utils/tradingUtils.ts: symbols *)

Module Symbols.

(** [formatExchangeSymbol]. *)
Definition formatExchangeSymbol (baseAsset quoteAsset : string) : string :=
  baseAsset +:+ quoteAsset.

Record ParsedSymbol := mkParsedSymbol {
  ps_baseAsset : string;
  ps_quoteAsset : string }.

(** [s.endsWith(suffix)]. *)
Definition endsWith (suffix s : string) : bool :=
  (String.length suffix <=? String.length s)%nat
  && String.eqb (String.substring (String.length s - String.length suffix)
                                  (String.length suffix) s) suffix.

(** [s.slice(0, -n)]; with [n = 0] the end index is 0 and the slice empty. *)
Definition slice_front (n : nat) (s : string) : string :=
  match n with
  | O => EmptyString
  | _ => String.substring 0 (String.length s - n) s
  end.

(** [s.slice(-n)]; with [n = 0] this is [s.slice(0)]. *)
Definition slice_back (n : nat) (s : string) : string :=
  match n with
  | O => s
  | _ => String.substring (String.length s - n) n s
  end.

Definition quoteAssets : list string :=
  ["USDT"; "BTC"; "ETH"; "USD"; "EUR"; "BNB"]%string.

(** [parseExchangeSymbol]: the first listed quote asset the symbol ends
    with decides the split; otherwise the last four characters are taken
    as the quote asset. *)
Definition parseExchangeSymbol (symbol : string) : ParsedSymbol :=
  match List.find (fun quote => endsWith quote symbol) quoteAssets with
  | Some quote => mkParsedSymbol (slice_front (String.length quote) symbol) quote
  | None => mkParsedSymbol (slice_front 4 symbol) (slice_back 4 symbol)
  end.

(** [toUpperCase] on ASCII text (asset symbols); other bytes are kept. *)
Definition upper_char (c : ascii) : ascii :=
  let n := N_of_ascii c in
  if ((97 <=? n) && (n <=? 122))%N then ascii_of_N (n - 32) else c.

Fixpoint toUpperCase (s : string) : string :=
  match s with
  | EmptyString => EmptyString
  | String c r => String (upper_char c) (toUpperCase r)
  end.

(** [tokenSet.add(x)] on a set kept in insertion order. *)
Definition set_add (x : string) (acc : list string) : list string :=
  if existsb (String.eqb x) acc then acc else acc ++ [x].

(** [getDefaultTokenSymbols]; the pair list of [shared/marketPairs.json] is
    a parameter. *)
Definition getDefaultTokenSymbols (marketPairs : list MarketPair) : list string :=
  fold_left
    (fun tokenSet pair =>
       set_add (toUpperCase (quoteAsset pair))
               (set_add (toUpperCase (baseAsset pair)) tokenSet))
    marketPairs [].

End Symbols.

(** ** utils/tradingUtils.ts: fee and cost estimates *)

Module CostEstimate.

(** [calculateTradingFee(orderSize, feeRate = 0.001)]. *)
Definition calculateTradingFee (orderSize : float) (feeRate : option float) : float :=
  (orderSize * default 0.001 feeRate)%float.

Record OrderCostEstimate := mkEstimate {
  est_subtotal : float;
  est_fee : float;
  est_total : float;
  est_effectivePrice : float }.

(** [estimateOrderCost(orderType, quantity, price, feeRate = 0.001)]. *)
Definition estimateOrderCost (orderType : OrderType) (quantity price : float)
    (feeRate : option float) : OrderCostEstimate :=
  let feeRate := default 0.001%float feeRate in
  let subtotal := (quantity * price)%float in
  let fee := (subtotal * feeRate)%float in
  match orderType with
  | BUY => mkEstimate subtotal fee (subtotal + fee) ((subtotal + fee) / quantity)
  | SELL => mkEstimate subtotal fee (subtotal - fee) ((subtotal - fee) / quantity)
  end.

End CostEstimate.

(** ** services/cexService.ts: account balances *)

Module CexAccount.
Import Js CexService.

Record CEXBalance := mkCEXBalance {
  asset : string;
  free : string;
  locked : string }.

(** [getAccountBalanceFromCEX]; [answer] is what the account request
    yields, with [response.data.balances] possibly absent. *)
Definition getAccountBalanceFromCEX (answer : Http (option (list CEXBalance)))
  : outcome (option (list CEXBalance)) :=
  match answer with
  | Resolved balances => Return balances
  | Rejected error =>
      Throw (Custom (mkCustomError
        (str_or (ax_msg error) "Failed to fetch account balance from Binance")
        (status_or_500 error)))
  end.

Record SyncResult := mkSyncResult {
  sync_status : string;
  sync_message : string;
  sync_count : nat }.

Definition nonZero (b : CEXBalance) : bool :=
  (0 <? parseFloat (free b))%float || (0 <? parseFloat (locked b))%float.

(** [syncBalancesFromCEX]: every failure inside the [try], also the
    [TypeError] of filtering an absent list, becomes one fixed error. *)
Definition syncBalancesFromCEX (answer : Http (option (list CEXBalance))) (userId : Z)
  : outcome SyncResult :=
  match getAccountBalanceFromCEX answer with
  | Return (Some balances) =>
      let nonZeroBalances := List.filter nonZero balances in
      Return (mkSyncResult "success" "Balances synced successfully"
                (length nonZeroBalances))
  | Return None | Throw _ =>
      Throw (Custom (mkCustomError "Failed to sync balances from Binance" 500))
  end.

End CexAccount.

(** ** services/tradingService.ts: order listing *)

Module OrderQueries.

Record OrderFilters := mkFilters {
  filter_status : option string;
  filter_marketPairId : option Z }.

(** [limit] and [offset], each possibly absent. *)
Record Pagination := mkPagination {
  limit : option nat;
  offset : option nat }.

Record OrderResult := mkOrderResult {
  result_orders : list TradingOrder;
  result_total : nat }.

(** The [where] clause [{ userId, ...filters }]. *)
Definition order_matches (userId : Z) (filters : OrderFilters) (o : TradingOrder) : bool :=
  (order_userId o =? userId)
  && match filter_status filters with
     | Some s => status_is s (status o)
     | None => true
     end
  && match filter_marketPairId filters with
     | Some m => marketPairId o =? m
     | None => true
     end.

Definition paginate {A} (pagination : Pagination) (rows : list A) : list A :=
  let rows := drop (default 0%nat (offset pagination)) rows in
  match limit pagination with
  | Some n => take n rows
  | None => rows
  end.

(** [getOrders]: [findAndCountAll] counts all matching rows and returns
    the requested window of them, newest first. Rows are kept in insertion
    order, which is the order of [createdAt]. *)
Definition getOrders (userId : Z) (filters : OrderFilters) (pagination : Pagination)
    (db : Db) : OrderResult :=
  let rows := List.filter (order_matches userId filters) (rev (orders db)) in
  mkOrderResult (paginate pagination rows) (length rows).

End OrderQueries.

(** * Properties *)

Import Js CexService TradingUtils TradingServiceUtils TradingService.

(** ** Sample data: one BTC/USDT pair, one user and the exchange rules of
       the test fixtures *)

Module Sample.

Definition pair : MarketPair := mkPair "BTC" "USDT".

Definition db : Db :=
  mkDb (<[(1, "USDT"%string) := mkBalance 10000 5000]>
          (<[(1, "BTC"%string) := mkBalance 1 0]> ∅))
       [] []
       (<[1 := pair]> ∅).

Definition rules : SymbolInfo :=
  mkSymbolInfo [mkFilter "PRICE_FILTER" (Some "0.01"%string) None;
                mkFilter "LOT_SIZE" None (Some "0.00001"%string)].

(** An exchange with fixed answers to submit, status query and cancel. *)
Definition exchange (place query cancel : Http CEXOrderResponse) : Exchange :=
  mkExchange
    (fun _ => Resolved (Some "50000.00"%string))
    (fun _ => Resolved [rules])
    (fun _ _ _ _ _ => place)
    (fun _ _ => query)
    (fun _ _ => cancel).

Definition answer (status : string) : Http CEXOrderResponse :=
  Resolved (mkResponse "12345" status (Some "0.1"%string) (Some "50000"%string)).

Definition refusal (code : Z) (msg : string) : Http CEXOrderResponse :=
  Rejected (mkAxiosError "Request failed with status code 400" (Some 400)
                         (Some code) (Some msg)).

(** A BUY LIMIT order of 0.1 BTC at 50000 USDT, as stored. *)
Definition order (status : string) : TradingOrder :=
  mkOrder 1 1 1 BUY LIMIT (Some 50000%float) 0.1%float (StatusName status)
          (Some "12345"%string).

(** The tables once that order is recorded and its 5005 USDT are reserved
    out of 10000. *)
Definition db_with (status : string) : Db :=
  mkDb (<[(1, "USDT"%string) := mkBalance 4995 5005]>
          (<[(1, "BTC"%string) := mkBalance 1 0]> ∅))
       [order status] []
       (<[1 := pair]> ∅).

End Sample.

(** ** Amounts named in the statements *)

(** What a BUY of [q] at [p] must have available: notional plus fee. *)
Definition buyTotal (p q : float) : float := (p * q + p * q * TRADING_FEE)%float.

(** A price or quantity that passes the checks of [validateUserBalance]. *)
Definition positive (x : float) : Prop := is_nan x = false /\ (x <=? 0)%float = false.

(** The balance row of a user and asset. *)
Definition row (db : Db) (uid : Z) (token : string) : option CryptoBalance :=
  balances db !! (uid, token).

(** The row as [findOrCreate] returns it: zero balances when absent. *)
Definition rowOrZero (db : Db) (uid : Z) (token : string) : CryptoBalance :=
  default (mkBalance 0 0) (row db uid token).

(** The asset and the amount the reserve step takes for an order. *)
Definition reserveToken (marketPair : MarketPair) (side : OrderType) : string :=
  match side with
  | BUY => quoteAsset marketPair
  | SELL => baseAsset marketPair
  end.

Definition reserveAmount (side : OrderType) (p q : float) : float :=
  match side with
  | BUY => buyTotal p q
  | SELL => q
  end.

(** The last character of a string. *)
Fixpoint last_char (s : string) : option ascii :=
  match s with
  | EmptyString => None
  | String c EmptyString => Some c
  | String _ r => last_char r
  end.

(** ** The number primitives on known values *)

Example toString_decimal :
  Number_toString 0.01 = "0.01"%string
  /\ Number_toString 0.00001 = "0.00001"%string
  /\ Number_toString 0.000001 = "0.000001"%string
  /\ Number_toString 1e-7 = "1e-7"%string
  /\ Number_toString 1.5e-7 = "1.5e-7"%string
  /\ Number_toString (0.1 + 0.2) = "0.30000000000000004"%string
  /\ Number_toString 1e21 = "1e+21"%string
  /\ Number_toString 50050 = "50050"%string.
Proof. repeat split; vm_compute; reflexivity. Qed.

Example toFixed_rounding :
  Number_toFixed 0.6 0 = "1"%string
  /\ Number_toFixed 1.005 2 = "1.00"%string
  /\ Number_toFixed 8.345 2 = "8.35"%string
  /\ Number_toFixed (-0.001) 2 = "-0.00"%string
  /\ Number_toFixed (5000001 * 0.01) 2 = "50000.01"%string.
Proof. repeat split; vm_compute; reflexivity. Qed.

Example parseFloat_reading :
  parseFloat "50000.01" = 50000.01%float
  /\ parseFloat "0.00000001" = 1e-8%float
  /\ parseFloat "  -1.5e3abc" = (-1500)%float
  /\ parseFloat "undefined" = nan
  /\ parseFloat "-0.00" = neg_zero.
Proof. repeat split; vm_compute; reflexivity. Qed.

Example floor_values :
  Math_floor 5000001.7 = 5000001%float
  /\ Math_floor (-0.5) = (-1)%float
  /\ Math_floor 1e-8 = 0%float
  /\ Math_pow10 5 = 100000%float.
Proof. repeat split; vm_compute; reflexivity. Qed.

Example countDecimals_values :
  countDecimals 0.01 = 2%nat
  /\ countDecimals 0.00001 = 5%nat
  /\ countDecimals 0.000001 = 6%nat
  /\ countDecimals 1e-7 = 0%nat
  /\ countDecimals 1 = 0%nat.
Proof. repeat split; vm_compute; reflexivity. Qed.

(** ** Reasoning about transaction code *)

Create HintDb tx discriminated.
#[local] Hint Unfold bind ret throw throwCustom lift get modify try_catch
  findBalance saveBalance insertOrder insertTrade saveOrder : tx.

Ltac tx_unfold := autounfold with tx.

Lemma eqb_nonzero (z : Z) : z <> 0 -> (z =? 0) = false.
Proof. intros H. now apply Z.eqb_neq. Qed.

Lemma positive_check (x : float) :
  positive x -> is_nan x || (x <=? 0)%float = false.
Proof. intros [-> ->]. reflexivity. Qed.

(** *** The reserve step *)

Section Reserve.
Variables (db : Db) (uid : Z) (marketPair : MarketPair) (p q : float).
Hypothesis Huid : uid <> 0.
Hypothesis Hp : positive p.
Hypothesis Hq : positive q.

Lemma validateUserBalance_buy_ok (b : CryptoBalance) :
  row db uid (quoteAsset marketPair) = Some b ->
  (parseFloat_or0 (availableBalance b) <? buyTotal p q)%float = false ->
  validateUserBalance uid marketPair BUY p q db =
    Return (tt, set_balances
      (<[(uid, quoteAsset marketPair) :=
           mkBalance (parseFloat_or0 (availableBalance b) - buyTotal p q)
                     (parseFloat_or0 (reservedBalance b) + buyTotal p q)]>
         (balances db)) db).
Proof.
  intros Hrow Hfunds. unfold validateUserBalance.
  rewrite (eqb_nonzero _ Huid), (positive_check _ Hp), (positive_check _ Hq).
  tx_unfold. unfold row in Hrow. rewrite Hrow.
  fold (buyTotal p q). rewrite Hfunds. reflexivity.
Qed.

Lemma validateUserBalance_buy_insufficient (b : CryptoBalance) :
  row db uid (quoteAsset marketPair) = Some b ->
  (parseFloat_or0 (availableBalance b) <? buyTotal p q)%float = true ->
  validateUserBalance uid marketPair BUY p q db =
    Throw (Custom (mkCustomError
      ("Insufficient " +:+ quoteAsset marketPair +:+ " balance. Required: "
       +:+ Number_toString (buyTotal p q) +:+ ", Available: "
       +:+ Number_toString (parseFloat_or0 (availableBalance b))) 400)).
Proof.
  intros Hrow Hfunds. unfold validateUserBalance.
  rewrite (eqb_nonzero _ Huid), (positive_check _ Hp), (positive_check _ Hq).
  tx_unfold. unfold row in Hrow. rewrite Hrow.
  fold (buyTotal p q). rewrite Hfunds. reflexivity.
Qed.

Lemma validateUserBalance_sell_ok (b : CryptoBalance) :
  row db uid (baseAsset marketPair) = Some b ->
  (parseFloat_or0 (availableBalance b) <? q)%float = false ->
  validateUserBalance uid marketPair SELL p q db =
    Return (tt, set_balances
      (<[(uid, baseAsset marketPair) :=
           mkBalance (parseFloat_or0 (availableBalance b) - q)
                     (parseFloat_or0 (reservedBalance b) + q)]>
         (balances db)) db).
Proof.
  intros Hrow Hfunds. unfold validateUserBalance.
  rewrite (eqb_nonzero _ Huid), (positive_check _ Hp), (positive_check _ Hq).
  tx_unfold. unfold row in Hrow. rewrite Hrow, Hfunds. reflexivity.
Qed.
End Reserve.

(** A throw inside a transaction leaves the tables as they were. *)
Lemma inTransaction_throw {A} (prefix : string) (body : Tx A) (db : Db) (t : Thrown) :
  body db = Throw t ->
  inTransaction prefix body db = (Failed (asCustomError prefix t), db).
Proof. intros H. unfold inTransaction. now rewrite H. Qed.

Lemma inTransaction_failed {A} (prefix : string) (body : Tx A) (db db' : Db)
    (e : CustomError) :
  inTransaction prefix body db = (Failed e, db') -> db' = db.
Proof.
  unfold inTransaction. destruct (body db) as [[a d]|t]; intros H; now inversion H.
Qed.

(** *** Balance updates *)

Lemma updateBalance_eq (db : Db) (uid : Z) (token : string) (amount : float) :
  updateBalance uid token amount db =
    Return (tt, set_balances
      (<[(uid, token) :=
           mkBalance (availableBalance (rowOrZero db uid token) + amount)
                     (reservedBalance (rowOrZero db uid token))]> (balances db)) db).
Proof.
  unfold updateBalance, findOrCreateBalance, rowOrZero, row. tx_unfold.
  destruct (balances db !! (uid, token)) as [b|] eqn:E; simpl.
  - reflexivity.
  - unfold set_balances; simpl. now rewrite insert_insert_eq.
Qed.

Lemma row_set_balances_eq (db : Db) (m : gmap (Z * string) CryptoBalance)
    (uid : Z) (token : string) (b : CryptoBalance) :
  row (set_balances (<[(uid, token) := b]> m) db) uid token = Some b.
Proof. unfold row; simpl. apply lookup_insert_eq. Qed.

Lemma row_set_balances_ne (db : Db) (m : gmap (Z * string) CryptoBalance)
    (uid uid' : Z) (token token' : string) (b : CryptoBalance) :
  (uid, token) <> (uid', token') ->
  row (set_balances (<[(uid, token) := b]> m) db) uid' token' = m !! (uid', token').
Proof. intros H. unfold row; simpl. now apply lookup_insert_ne. Qed.

(** *** Order creation, step by step *)

Lemma createOrder_prepared (ex : Exchange) (uid mpid : Z) (side : OrderType)
    (style : ExecutionType) (price : option float) (quantity : float)
    (db : Db) (prep : Prepared) :
  prepareOrder ex uid mpid style price quantity db = Return (prep, db) ->
  createOrder ex uid mpid side style price quantity db =
    inTransaction "Failed to place order: " (submitOrder ex uid mpid side style prep) db.
Proof.
  intros H. unfold createOrder, inTransaction, createOrder_body, bind.
  now rewrite H.
Qed.

(** Step 11 never gets past the validation of the trade row, for either
    side and whatever the exchange reported as executed. *)
Lemma settleFilled_refused (uid mpid : Z) (marketPair : MarketPair) (side : OrderType)
    (o : TradingOrder) (resp : CEXOrderResponse) (p q : float) (d : Db) :
  settleFilled uid mpid marketPair side o resp p q d =
    Throw (OtherError (notNullMessage ["total"; "fee"; "feeCurrency"]%string)).
Proof. unfold settleFilled. destruct side; reflexivity. Qed.

Section Submit.
Variables (ex : Exchange) (uid mpid : Z) (side : OrderType) (style : ExecutionType).
Variables (prep : Prepared) (db : Db).

Let pending (d : Db) : TradingOrder :=
  mkOrder (nextOrderId d) uid mpid side style (Some (p_adjustedPrice prep))
          (p_adjustedQuantity prep) (StatusName "PENDING") None.

Lemma submitOrder_reserve_fails (t : Thrown) :
  validateUserBalance uid (p_marketPair prep) side (p_adjustedPrice prep)
    (p_adjustedQuantity prep) db = Throw t ->
  submitOrder ex uid mpid side style prep db = Throw t.
Proof. intros H. unfold submitOrder, bind. now rewrite H. Qed.

Lemma submitOrder_exchange_fails (db1 : Db) (t : Thrown) :
  validateUserBalance uid (p_marketPair prep) side (p_adjustedPrice prep)
    (p_adjustedQuantity prep) db = Return (tt, db1) ->
  placeOrderOnCEX ex side (p_symbol prep) style (Some (p_adjustedPrice prep))
    (p_adjustedQuantity prep) = Throw t ->
  submitOrder ex uid mpid side style prep db = Throw t.
Proof.
  intros Hres Hex. unfold submitOrder, bind. rewrite Hres.
  tx_unfold. now rewrite Hex.
Qed.

Lemma submitOrder_filled_refused (db1 : Db) (resp : CEXOrderResponse) :
  validateUserBalance uid (p_marketPair prep) side (p_adjustedPrice prep)
    (p_adjustedQuantity prep) db = Return (tt, db1) ->
  placeOrderOnCEX ex side (p_symbol prep) style (Some (p_adjustedPrice prep))
    (p_adjustedQuantity prep) = Return resp ->
  resp_status resp = "FILLED"%string ->
  submitOrder ex uid mpid side style prep db =
    Throw (OtherError (notNullMessage ["total"; "fee"; "feeCurrency"]%string)).
Proof.
  intros Hres Hex Hst.
  unfold submitOrder. unfold bind at 1. rewrite Hres.
  unfold bind at 1, get. unfold bind at 1, insertOrder, modify.
  unfold bind at 1, lift. rewrite Hex, Hst, String.eqb_refl.
  unfold bind at 1. rewrite settleFilled_refused. reflexivity.
Qed.

End Submit.

(** *** Cancellation, path by path *)

Section Cancel.
Variables (ex : Exchange) (uid oid : Z) (db : Db).
Variables (order : TradingOrder) (marketPair : MarketPair).
Hypothesis Hfind :
  List.find (fun o => (id o =? oid) && (order_userId o =? uid)) (orders db) = Some order.

Let symbol : string := baseAsset marketPair +:+ quoteAsset marketPair.
Let saved (o : TradingOrder) : Db :=
  set_orders (map (fun o' => if id o' =? id o then o else o') (orders db)) db.

Lemma cancelOrder_not_placed :
  status_is "PLACED" (status order) = false ->
  cancelOrder ex uid oid db =
    (Failed (mkCustomError "Only active orders can be canceled" 400), db).
Proof.
  intros Hst. unfold cancelOrder, inTransaction, cancelOrder_body.
  unfold bind at 1, get. rewrite Hfind, Hst. reflexivity.
Qed.

Hypothesis Hplaced : status_is "PLACED" (status order) = true.
Hypothesis Hpair : marketPairs db !! marketPairId order = Some marketPair.

Lemma cancelOrder_exchange_filled (resp : CEXOrderResponse) :
  getOrder ex (externalOrderId order) (Some symbol) = Resolved resp ->
  resp_status resp = "FILLED"%string ->
  cancelOrder ex uid oid db =
    (Fulfilled ("Order already filled"%string, set_status (StatusName "FILLED") order),
     saved (set_status (StatusName "FILLED") order)).
Proof.
  intros Hget Hst. unfold cancelOrder, inTransaction, cancelOrder_body.
  unfold bind at 1, get. rewrite Hfind, Hplaced, Hpair. cbn [negb].
  unfold checkCexStatus, getOrderStatusFromCEX. fold symbol. rewrite Hget.
  tx_unfold. rewrite Hst, String.eqb_refl. reflexivity.
Qed.

Lemma cancelOrder_exchange_canceled (resp : CEXOrderResponse) :
  getOrder ex (externalOrderId order) (Some symbol) = Resolved resp ->
  resp_status resp = "CANCELED"%string ->
  cancelOrder ex uid oid db =
    (Fulfilled ("Order already canceled"%string, set_status (StatusName "CANCELLED") order),
     saved (set_status (StatusName "CANCELLED") order)).
Proof.
  intros Hget Hst. unfold cancelOrder, inTransaction, cancelOrder_body.
  unfold bind at 1, get. rewrite Hfind, Hplaced, Hpair. cbn [negb].
  unfold checkCexStatus, getOrderStatusFromCEX. fold symbol. rewrite Hget.
  tx_unfold. rewrite Hst. reflexivity.
Qed.

Lemma cancelOrder_exchange_missing (e : AxiosError) :
  getOrder ex (externalOrderId order) (Some symbol) = Rejected e ->
  includes "does not exist"
    (str_or (ax_msg e) "Failed to fetch order status from Binance") = true ->
  cancelOrder ex uid oid db =
    (Fulfilled ("Order not found on Binance, marked canceled"%string,
                set_status (StatusName "CANCELLED") order),
     saved (set_status (StatusName "CANCELLED") order)).
Proof.
  intros Hget Hmsg. unfold cancelOrder, inTransaction, cancelOrder_body.
  unfold bind at 1, get. rewrite Hfind, Hplaced, Hpair. cbn [negb].
  unfold checkCexStatus, getOrderStatusFromCEX. fold symbol. rewrite Hget.
  tx_unfold. cbn [thrown_message message]. rewrite Hmsg. reflexivity.
Qed.

(** The exchange knows the order and reports it neither FILLED nor
    CANCELED: step 2 falls through to the cancel request. *)
Variable resp : CEXOrderResponse.
Hypothesis Hget : getOrder ex (externalOrderId order) (Some symbol) = Resolved resp.
Hypothesis Hnot_filled : String.eqb (resp_status resp) "FILLED" = false.
Hypothesis Hnot_canceled : String.eqb (resp_status resp) "CANCELED" = false.

Lemma cancelOrder_adapter_throws (t : Thrown) :
  cancelOrderOnCEX ex (externalOrderId order) symbol = Throw t ->
  cancelOrder ex uid oid db = (Failed (asCustomError "Failed to cancel order: " t), db).
Proof.
  intros Hdel. unfold cancelOrder, inTransaction, cancelOrder_body.
  unfold bind at 1, get. rewrite Hfind, Hplaced, Hpair. cbn [negb].
  unfold checkCexStatus, getOrderStatusFromCEX. fold symbol. rewrite Hget.
  tx_unfold. rewrite Hnot_filled, Hnot_canceled, Hdel. reflexivity.
Qed.

Lemma cancelOrder_confirmed (cancelResponse : CEXOrderResponse) :
  deleteOrder ex (externalOrderId order) symbol = Resolved cancelResponse ->
  resp_status cancelResponse = "CANCELED"%string ->
  let cancelled := set_status (StatusName "CANCELLED") order in
  let token := releaseToken order marketPair in
  cancelOrder ex uid oid db =
    (Fulfilled ("Order canceled successfully"%string, cancelled),
     match row db uid token with
     | Some balance =>
         set_balances
           (<[(uid, token) :=
                mkBalance (availableBalance balance)
                          (reservedBalance balance - releaseAmount order)]>
              (balances db))
           (saved cancelled)
     | None => saved cancelled
     end).
Proof.
  intros Hdel Hst cancelled token.
  unfold cancelOrder, inTransaction, cancelOrder_body.
  unfold bind at 1, get. rewrite Hfind, Hplaced, Hpair. cbn [negb].
  unfold checkCexStatus, getOrderStatusFromCEX, cancelOrderOnCEX.
  fold symbol. rewrite Hget.
  tx_unfold. rewrite Hnot_filled, Hnot_canceled, Hdel, Hst.
  cbn [negb String.eqb Ascii.eqb Bool.eqb andb].
  fold cancelled. unfold row.
  change (releaseToken cancelled marketPair) with token.
  change (releaseAmount cancelled) with (releaseAmount order).
  cbn [balances set_orders].
  destruct (balances db !! (uid, token)); reflexivity.
Qed.

End Cancel.

(** *** The adapter on a rejected submit *)

Lemma placeOrderOnCEX_rejected (ex : Exchange) (side : OrderType) (symbol : string)
    (style : ExecutionType) (p : option float) (q : float) (error : AxiosError) :
  postOrder ex side symbol style
    (match style with LIMIT => p | MARKET => None end) q = Rejected error ->
  placeOrderOnCEX ex side symbol style p q =
    Throw (Custom (mkCustomError
      (str_or (ax_msg error) "Failed to place order on Binance")
      (status_or_500 error))).
Proof. intros H. unfold placeOrderOnCEX. now rewrite H. Qed.

(** ** The claims *)

(** C1 (not met by the code). Releasing a reservation on cancellation should
    move the amount from reserved back to available and keep their sum.
    Here a BUY of 0.1 at 50000 had 5005 reserved out of 10000; after the
    confirmed cancellation the row holds 4995 available and 5 reserved:
    nothing returns to available and the sum drops from 10000 to 5000. *)
Theorem cancel_release_loses_funds :
  let ex := Sample.exchange (Sample.answer "NEW") (Sample.answer "NEW")
                            (Sample.answer "CANCELED") in
  row (Sample.db_with "PLACED") 1 "USDT" = Some (mkBalance 4995 5005)
  /\ (4995 + 5005 = 10000)%float
  /\ exists result db',
       cancelOrder ex 1 1 (Sample.db_with "PLACED") = (Fulfilled result, db')
       /\ fst result = "Order canceled successfully"%string
       /\ row db' 1 "USDT" = Some (mkBalance 4995 5)
       /\ (4995 + 5 = 5000)%float.
Proof.
  cbv zeta. split; [reflexivity|]. split; [reflexivity|].
  eexists _, _. split; [vm_compute; reflexivity|].
  split; [reflexivity|]. split; reflexivity.
Qed.

(** C2 (not met by the code). When the status query already reports
    CANCELED, or reports that the order does not exist, [cancelOrder] marks
    the order CANCELLED and returns before the release step: the 5005
    reserved for the order stay reserved. *)
Theorem cancel_early_return_keeps_reservation :
  let canceled := Sample.exchange (Sample.answer "NEW") (Sample.answer "CANCELED")
                                  (Sample.answer "CANCELED") in
  let missing := Sample.exchange (Sample.answer "NEW")
                                 (Sample.refusal (-2013) "Order does not exist.")
                                 (Sample.answer "CANCELED") in
  let unreleased (ex : Exchange) (msg : string) :=
    exists db',
      cancelOrder ex 1 1 (Sample.db_with "PLACED") =
        (Fulfilled (msg, Sample.order "CANCELLED"), db')
      /\ orders db' = [Sample.order "CANCELLED"]
      /\ row db' 1 "USDT" = Some (mkBalance 4995 5005)
      /\ balances db' = balances (Sample.db_with "PLACED") in
  unreleased canceled "Order already canceled"
  /\ unreleased missing "Order not found on Binance, marked canceled".
Proof.
  cbv zeta. split; eexists; (split; [vm_compute; reflexivity|]);
    repeat split; reflexivity.
Qed.

(** C3 (not met by the code). The fee is meant to be charged on top of a
    BUY and deducted from the proceeds of a SELL, and the first half holds:
    reserving for a BUY of 0.1 at 50000 moves exactly 5005 of the quote
    asset. For the SELL, [createTradeHistory] computes the net 4995 (fee 5)
    but changes no balance, and nothing calls it; the settlement that
    [createOrder] runs for a fill credits the full 5000, and it is never
    committed, because the trade row it records is refused: the call is
    rejected and the seller's quote balance stays as it was. *)
Theorem sell_fill_nets_no_4995 :
  let ex := Sample.exchange (Sample.answer "FILLED") (Sample.answer "NEW")
                            (Sample.answer "CANCELED") in
  let sold := mkOrder 1 1 1 SELL LIMIT (Some 50000%float) 0.1%float
                      (StatusName "PLACED") (Some "12345"%string) in
  validateUserBalance 1 Sample.pair BUY 50000 0.1 Sample.db =
    Return (tt, set_balances
                  (<[(1, "USDT"%string) := mkBalance 4995 10005]> (balances Sample.db))
                  Sample.db)
  /\ (exists details db',
        createTradeHistory 1 1 1 "BTC" "USDT" 50000 0.1 "12345"
          (set_orders [sold] Sample.db) = Return (details, db')
        /\ quoteAmount details = 4995%float /\ fee details = 5%float
        /\ balances db' = balances Sample.db)
  /\ fillAmounts SELL (executedQtyOf (mkResponse "12345" "FILLED" (Some "0.1"%string)
                                                  (Some "50000"%string)) 0.1)
                       (executedPriceOf (mkResponse "12345" "FILLED" (Some "0.1"%string)
                                                    (Some "50000"%string)) 50000)
     = ((-0.1)%float, 5000%float)
  /\ (exists detail,
        createOrder ex 1 1 SELL LIMIT (Some 50000%float) 0.1%float Sample.db =
          (Failed (mkCustomError ("Failed to place order: " +:+ detail) 500), Sample.db))
  /\ row Sample.db 1 "USDT" = Some (mkBalance 10000 5000).
Proof.
  cbv zeta. split; [vm_compute; reflexivity|]. split.
  { eexists _, _. split; [vm_compute; reflexivity|]. repeat split; reflexivity. }
  split; [vm_compute; reflexivity|]. split; [|reflexivity].
  exists (notNullMessage ["total"; "fee"; "feeCurrency"]%string). vm_compute. reflexivity.
Qed.

(** C4. A BUY whose required total (notional plus fee) exceeds the
    available balance of the quote asset is rejected by the reserve step
    with an error (status 400) whose message reports the required and the
    available amount, and [createOrder] ends with the tables, hence the
    balance row, exactly as they were. *)
Theorem insufficient_buy_rejected_unchanged (ex : Exchange) (uid mpid : Z)
    (style : ExecutionType) (price : option float) (quantity : float)
    (db : Db) (prep : Prepared) (b : CryptoBalance) :
  prepareOrder ex uid mpid style price quantity db = Return (prep, db) ->
  uid <> 0 ->
  positive (p_adjustedPrice prep) ->
  positive (p_adjustedQuantity prep) ->
  row db uid (quoteAsset (p_marketPair prep)) = Some b ->
  (parseFloat_or0 (availableBalance b)
     <? buyTotal (p_adjustedPrice prep) (p_adjustedQuantity prep))%float = true ->
  let insufficient :=
    mkCustomError
      ("Insufficient " +:+ quoteAsset (p_marketPair prep) +:+ " balance. Required: "
       +:+ Number_toString (buyTotal (p_adjustedPrice prep) (p_adjustedQuantity prep))
       +:+ ", Available: " +:+ Number_toString (parseFloat_or0 (availableBalance b)))
      400 in
  validateUserBalance uid (p_marketPair prep) BUY (p_adjustedPrice prep)
    (p_adjustedQuantity prep) db = Throw (Custom insufficient)
  /\ createOrder ex uid mpid BUY style price quantity db = (Failed insufficient, db)
  /\ row (snd (createOrder ex uid mpid BUY style price quantity db)) uid
         (quoteAsset (p_marketPair prep)) = Some b.
Proof.
  intros Hprep Huid Hp Hq Hrow Hfunds insufficient.
  pose proof (validateUserBalance_buy_insufficient db uid (p_marketPair prep)
                _ _ Huid Hp Hq b Hrow Hfunds) as Hthrow.
  fold insufficient in Hthrow.
  assert (Hcreate : createOrder ex uid mpid BUY style price quantity db
                    = (Failed insufficient, db)).
  { rewrite (createOrder_prepared _ _ _ _ _ _ _ _ _ Hprep).
    apply (inTransaction_throw _ _ _ (Custom insufficient)).
    now apply submitOrder_reserve_fails. }
  split; [exact Hthrow|]. split; [exact Hcreate|]. now rewrite Hcreate.
Qed.

Lemma insufficient_buy_rejected_unchanged_witness :
  createOrder (Sample.exchange (Sample.answer "NEW") (Sample.answer "NEW")
                               (Sample.answer "CANCELED"))
              1 1 BUY LIMIT (Some 50000%float) 1%float Sample.db
  = (Failed (mkCustomError
               "Insufficient USDT balance. Required: 50050, Available: 10000" 400),
     Sample.db).
Proof.
  apply (insufficient_buy_rejected_unchanged
           (Sample.exchange (Sample.answer "NEW") (Sample.answer "NEW")
                            (Sample.answer "CANCELED"))
           1 1 LIMIT (Some 50000%float) 1%float Sample.db
           (mkPrepared Sample.pair "BTCUSDT" 50000 1) (mkBalance 10000 5000)).
  - vm_compute; reflexivity.
  - lia.
  - split; reflexivity.
  - split; reflexivity.
  - reflexivity.
  - reflexivity.
Defined.

(** C5. When the exchange rejects the submit of [createOrder] after the
    reservation was made inside the transaction, the transaction is rolled
    back before the error is rethrown: [createOrder] rejects with the
    adapter's error and the tables, so the reserved and the available
    balance of every row, are what they were before the reservation. *)
Theorem exchange_failure_undoes_reservation (ex : Exchange) (uid mpid : Z)
    (side : OrderType) (style : ExecutionType) (price : option float)
    (quantity : float) (db db1 : Db) (prep : Prepared) (error : AxiosError) :
  prepareOrder ex uid mpid style price quantity db = Return (prep, db) ->
  validateUserBalance uid (p_marketPair prep) side (p_adjustedPrice prep)
    (p_adjustedQuantity prep) db = Return (tt, db1) ->
  postOrder ex side (p_symbol prep) style
    (match style with LIMIT => Some (p_adjustedPrice prep) | MARKET => None end)
    (p_adjustedQuantity prep) = Rejected error ->
  createOrder ex uid mpid side style price quantity db =
    (Failed (mkCustomError (str_or (ax_msg error) "Failed to place order on Binance")
                           (status_or_500 error)), db)
  /\ forall token,
       row (snd (createOrder ex uid mpid side style price quantity db)) uid token
       = row db uid token.
Proof.
  intros Hprep Hres Hex.
  apply placeOrderOnCEX_rejected in Hex.
  match type of Hex with _ = Throw (Custom ?e) =>
    assert (Hcreate : createOrder ex uid mpid side style price quantity db
                      = (Failed e, db))
  end.
  { rewrite (createOrder_prepared _ _ _ _ _ _ _ _ _ Hprep).
    apply (inTransaction_throw _ _ _ (Custom _)).
    now apply (submitOrder_exchange_fails _ _ _ _ _ _ _ db1). }
  split; [exact Hcreate|]. intros token. now rewrite Hcreate.
Qed.

Lemma exchange_failure_undoes_reservation_witness :
  validateUserBalance 1 Sample.pair BUY 50000 0.1 Sample.db =
    Return (tt, set_balances
                  (<[(1, "USDT"%string) := mkBalance 4995 10005]> (balances Sample.db))
                  Sample.db)
  /\ createOrder (Sample.exchange (Sample.refusal (-1013) "Filter failure: NOTIONAL")
                                  (Sample.answer "NEW") (Sample.answer "CANCELED"))
                 1 1 BUY LIMIT (Some 50000%float) 0.1%float Sample.db
     = (Failed (mkCustomError "Filter failure: NOTIONAL" 400), Sample.db).
Proof.
  split; [vm_compute; reflexivity|].
  apply (exchange_failure_undoes_reservation
           (Sample.exchange (Sample.refusal (-1013) "Filter failure: NOTIONAL")
                            (Sample.answer "NEW") (Sample.answer "CANCELED"))
           1 1 BUY LIMIT (Some 50000%float) 0.1%float Sample.db
           (set_balances
              (<[(1, "USDT"%string) := mkBalance 4995 10005]> (balances Sample.db))
              Sample.db)
           (mkPrepared Sample.pair "BTCUSDT" 50000 0.1)
           (mkAxiosError "Request failed with status code 400" (Some 400)
                         (Some (-1013)) (Some "Filter failure: NOTIONAL"%string))).
  - vm_compute; reflexivity.
  - vm_compute; reflexivity.
  - reflexivity.
Defined.

(** C10 (not met by the code). For a BUY that the exchange reports FILLED
    on submission, [createOrder] reserves notional plus fee and then sets
    out to settle, which would debit the available quote balance a second
    time; but the trade row of step 11 lacks the required [total], [fee]
    and [feeCurrency] and is refused, so the whole transaction is rolled
    back and the call rejects with status 500: the quote row is neither
    debited nor reserved, although the exchange has executed the order. *)
Theorem immediate_fill_buy_is_rolled_back :
  let ex := Sample.exchange (Sample.answer "FILLED") (Sample.answer "NEW")
                            (Sample.answer "CANCELED") in
  (exists detail,
     createOrder ex 1 1 BUY LIMIT (Some 50000%float) 0.1%float Sample.db =
       (Failed (mkCustomError ("Failed to place order: " +:+ detail) 500), Sample.db))
  /\ row Sample.db 1 "USDT" = Some (mkBalance 10000 5000)
  /\ orders Sample.db = [] /\ trades Sample.db = []
  /\ fillAmounts BUY 0.1 50000 = (0.1%float, (-5000)%float).
Proof.
  cbv zeta. split; [|repeat split; vm_compute; reflexivity].
  exists (notNullMessage ["total"; "fee"; "feeCurrency"]%string). vm_compute. reflexivity.
Qed.

(** C6, as the claim states it, fails: cancelling an order that is already
    FILLED, or already CANCELLED, is not a success; the call rejects with
    status 400. *)
Lemma cancel_terminal_order_is_an_error :
  let ex := Sample.exchange (Sample.answer "NEW") (Sample.answer "NEW")
                            (Sample.answer "CANCELED") in
  cancelOrder ex 1 1 (Sample.db_with "FILLED") =
    (Failed (mkCustomError "Only active orders can be canceled" 400),
     Sample.db_with "FILLED")
  /\ cancelOrder ex 1 1 (Sample.db_with "CANCELLED") =
    (Failed (mkCustomError "Only active orders can be canceled" 400),
     Sample.db_with "CANCELLED").
Proof. cbv zeta. split; vm_compute; reflexivity. Qed.

(** C6 (amended). [cancelOrder] on an order that is already CANCELLED or
    already FILLED rejects with the error "Only active orders can be
    canceled" (status 400); the order and the ledger are not touched, so
    nothing is mutated a second time. *)
Theorem cancel_terminal_order_rejected (ex : Exchange) (uid oid : Z) (db : Db)
    (order : TradingOrder) :
  List.find (fun o => (id o =? oid) && (order_userId o =? uid)) (orders db) = Some order ->
  status order = StatusName "CANCELLED" \/ status order = StatusName "FILLED" ->
  cancelOrder ex uid oid db =
    (Failed (mkCustomError "Only active orders can be canceled" 400), db).
Proof.
  intros Hfind Hst. apply (cancelOrder_not_placed ex uid oid db order Hfind).
  destruct Hst as [-> | ->]; reflexivity.
Qed.

Lemma cancel_terminal_order_rejected_witness :
  cancelOrder (Sample.exchange (Sample.answer "NEW") (Sample.answer "FILLED")
                               (Sample.answer "CANCELED"))
              1 1 (Sample.db_with "FILLED") =
    (Failed (mkCustomError "Only active orders can be canceled" 400),
     Sample.db_with "FILLED").
Proof.
  apply (cancel_terminal_order_rejected _ 1 1 (Sample.db_with "FILLED")
           (Sample.order "FILLED")).
  - reflexivity.
  - right. reflexivity.
Defined.



(** C8, as the claim states it, fails: when the exchange answers the cancel
    request with code -2011 (or -2013), [cancelOrder] rejects with a 404
    error and the order stays PLACED. *)
Lemma cancel_unknown_order_surfaces_404 :
  let db := Sample.db_with "PLACED" in
  let ex (code : Z) (msg : string) :=
    Sample.exchange (Sample.answer "NEW") (Sample.answer "NEW") (Sample.refusal code msg) in
  cancelOrder (ex (-2011) "Unknown order sent.") 1 1 db =
    (Failed (mkCustomError "Order not found or already executed" 404), db)
  /\ cancelOrder (ex (-2013) "Order does not exist.") 1 1 db =
    (Failed (mkCustomError "Order already finished (filled or canceled)" 404), db)
  /\ orders db = [Sample.order "PLACED"].
Proof. cbv zeta. repeat split; vm_compute; reflexivity. Qed.

(** C8 (amended). The adapter maps the exchange's "unknown order" (-2011)
    and "order does not exist" (-2013) answers to a cancel request to 404
    errors with fixed messages, and [cancelOrder] lets them surface: it
    rejects with that error after rolling back, leaving the order PLACED
    and the tables unchanged. *)
Theorem cancel_adapter_maps_unknown_order_to_404 (ex : Exchange) (uid oid : Z)
    (db : Db) (order : TradingOrder) (marketPair : MarketPair)
    (resp : CEXOrderResponse) (e : AxiosError) :
  let symbol := baseAsset marketPair +:+ quoteAsset marketPair in
  let notFound :=
    mkCustomError
      (if decide (ax_code e = Some (-2011)) then "Order not found or already executed"
       else "Order already finished (filled or canceled)") 404 in
  List.find (fun o => (id o =? oid) && (order_userId o =? uid)) (orders db) = Some order ->
  status_is "PLACED" (status order) = true ->
  marketPairs db !! marketPairId order = Some marketPair ->
  getOrder ex (externalOrderId order) (Some symbol) = Resolved resp ->
  String.eqb (resp_status resp) "FILLED" = false ->
  String.eqb (resp_status resp) "CANCELED" = false ->
  deleteOrder ex (externalOrderId order) symbol = Rejected e ->
  ax_code e = Some (-2011) \/ ax_code e = Some (-2013) ->
  cancelOrderOnCEX ex (externalOrderId order) symbol = Throw (Custom notFound)
  /\ cancelOrder ex uid oid db = (Failed notFound, db).
Proof.
  intros symbol notFound Hfind Hplaced Hpair Hget Hnf Hnc Hdel Hcode.
  assert (Hthrow : cancelOrderOnCEX ex (externalOrderId order) symbol
                   = Throw (Custom notFound)).
  { unfold cancelOrderOnCEX, notFound. rewrite Hdel.
    destruct Hcode as [-> | ->]; reflexivity. }
  split; [exact Hthrow|].
  apply (cancelOrder_adapter_throws ex uid oid db order marketPair Hfind Hplaced Hpair
           resp Hget Hnf Hnc (Custom notFound) Hthrow).
Qed.

Lemma cancel_adapter_maps_unknown_order_to_404_witness :
  cancelOrder (Sample.exchange (Sample.answer "NEW") (Sample.answer "NEW")
                               (Sample.refusal (-2011) "Unknown order sent."))
              1 1 (Sample.db_with "PLACED") =
    (Failed (mkCustomError "Order not found or already executed" 404),
     Sample.db_with "PLACED").
Proof.
  apply (cancel_adapter_maps_unknown_order_to_404
           (Sample.exchange (Sample.answer "NEW") (Sample.answer "NEW")
                            (Sample.refusal (-2011) "Unknown order sent."))
           1 1 (Sample.db_with "PLACED") (Sample.order "PLACED") Sample.pair
           (mkResponse "12345" "NEW" (Some "0.1"%string) (Some "50000"%string))
           (mkAxiosError "Request failed with status code 400" (Some 400)
                         (Some (-2011)) (Some "Unknown order sent."%string))).
  - reflexivity.
  - reflexivity.
  - reflexivity.
  - reflexivity.
  - reflexivity.
  - reflexivity.
  - reflexivity.
  - left. reflexivity.
Defined.

(** C9 (not met by the code). On the claim's own numbers normalisation
    floors as stated: 50000.017 becomes 50000.01 and 0.123456 becomes
    0.12345. But an increment that prints in exponent notation, such as
    1e-8 or 1e-7, is counted as having no decimals, so the floored value is
    then rounded to a whole number: a quantity of 0.7 becomes 1 and a price
    of 0.6 becomes 1, both rounded up. *)
Theorem normalisation_rounds_up_for_small_increments :
  adjustPriceToTickSize 50000.017 0.01 = 50000.01%float
  /\ adjustQuantityToLotSize 0.123456 0.00001 = 0.12345%float
  /\ Number_toString 1e-8 = "1e-8"%string
  /\ countDecimals 1e-8 = 0%nat
  /\ adjustQuantityToLotSize 0.7 1e-8 = 1%float
  /\ adjustPriceToTickSize 0.6 1e-7 = 1%float
  /\ (0.7 <? 1)%float = true.
Proof. repeat split; vm_compute; reflexivity. Qed.

(** * Further properties of the modelled code *)

Import Symbols CostEstimate CexAccount OrderQueries.

(** ** Strings *)

Lemma substring_all (s : string) (m : nat) :
  (String.length s <= m)%nat -> String.substring 0 m s = s.
Proof.
  revert m. induction s as [|c s IH]; intros [|m] H; simpl in *; try reflexivity.
  - lia.
  - f_equal. apply IH. lia.
Qed.

Lemma append_cons (c : ascii) (a b : string) :
  String c a +:+ b = String c (a +:+ b).
Proof. reflexivity. Qed.

Lemma append_nil (b : string) : EmptyString +:+ b = b.
Proof. reflexivity. Qed.

Lemma substring_split (s : string) (n m : nat) :
  (String.length s - n <= m)%nat ->
  String.substring 0 n s +:+ String.substring n m s = s.
Proof.
  revert n m. induction s as [|c s IH]; intros n m H.
  - destruct n, m; reflexivity.
  - destruct n as [|n].
    + change (String.substring 0 0 (String c s)) with EmptyString.
      rewrite append_nil. apply substring_all. simpl in *. lia.
    + change (String.substring 0 (S n) (String c s))
        with (String c (String.substring 0 n s)).
      change (String.substring (S n) m (String c s)) with (String.substring n m s).
      rewrite append_cons. f_equal. apply IH. simpl in H. lia.
Qed.

Lemma substring_append_front (a b : string) :
  String.substring 0 (String.length a) (a +:+ b) = a.
Proof.
  induction a as [|c a IH].
  - rewrite append_nil. destruct b; reflexivity.
  - rewrite append_cons. simpl. now rewrite IH.
Qed.

Lemma substring_append_back (a b : string) :
  String.substring (String.length a) (String.length b) (a +:+ b) = b.
Proof.
  induction a as [|c a IH].
  - rewrite append_nil. now apply substring_all.
  - rewrite append_cons. exact IH.
Qed.

Lemma length_append (a b : string) :
  String.length (a +:+ b) = (String.length a + String.length b)%nat.
Proof.
  induction a as [|c a IH]; [reflexivity|].
  rewrite append_cons. simpl. now rewrite IH.
Qed.

Lemma last_char_append (a b : string) :
  b <> EmptyString -> last_char (a +:+ b) = last_char b.
Proof.
  intros Hb. induction a as [|c a IH]; [reflexivity|].
  rewrite append_cons, <- IH. simpl. destruct (a +:+ b) eqn:E; [|reflexivity].
  destruct a; [rewrite append_nil in E; contradiction|].
  rewrite append_cons in E. discriminate.
Qed.

Lemma endsWith_split (q s : string) :
  endsWith q s = true ->
  String.substring 0 (String.length s - String.length q) s +:+ q = s.
Proof.
  unfold endsWith. intros H. apply andb_prop in H as [Hlen Heq].
  apply Nat.leb_le in Hlen. apply String.eqb_eq in Heq.
  rewrite <- Heq at 2. apply substring_split. lia.
Qed.

Lemma endsWith_last_char (q s : string) :
  q <> EmptyString -> endsWith q s = true -> last_char s = last_char q.
Proof.
  intros Hq H. rewrite <- (endsWith_split q s H). now apply last_char_append.
Qed.

Lemma endsWith_append (a q : string) : endsWith q (a +:+ q) = true.
Proof.
  unfold endsWith. rewrite length_append.
  replace (String.length a + String.length q - String.length q)%nat
    with (String.length a) by lia.
  rewrite substring_append_back, String.eqb_refl.
  rewrite andb_true_r. apply Nat.leb_le. lia.
Qed.

(** ** Exchange symbols *)

(** X1. Splitting any symbol and joining the two parts again gives the
    symbol back: [parseExchangeSymbol] never loses or invents characters. *)
Theorem format_after_parse (symbol : string) :
  formatExchangeSymbol (ps_baseAsset (parseExchangeSymbol symbol))
                       (ps_quoteAsset (parseExchangeSymbol symbol)) = symbol.
Proof.
  unfold parseExchangeSymbol, formatExchangeSymbol.
  destruct (List.find (fun quote => endsWith quote symbol) quoteAssets)
    as [quote|] eqn:E; simpl.
  - apply find_some in E as [Hin Hends].
    pose proof (endsWith_split quote symbol Hends) as Hsplit.
    unfold quoteAssets in Hin. simpl in Hin.
    destruct Hin as [<-|[<-|[<-|[<-|[<-|[<-|[]]]]]]]; exact Hsplit.
  - apply substring_split. lia.
Qed.

(** X2. For each of the six listed quote assets, joining a base asset with
    it and parsing the symbol returns exactly the two assets, whatever the
    base asset is. *)
Theorem parse_after_format (baseAsset quoteAsset : string) :
  In quoteAsset quoteAssets ->
  parseExchangeSymbol (formatExchangeSymbol baseAsset quoteAsset) =
    mkParsedSymbol baseAsset quoteAsset.
Proof.
  intros Hin. unfold parseExchangeSymbol, formatExchangeSymbol.
  assert (Hmiss : forall q, q <> EmptyString ->
            last_char q <> last_char quoteAsset ->
            endsWith q (baseAsset +:+ quoteAsset) = false).
  { intros q Hq Hlast. destruct (endsWith q (baseAsset +:+ quoteAsset)) eqn:E; trivial.
    apply (endsWith_last_char q _ Hq) in E.
    rewrite last_char_append in E; [congruence|].
    unfold quoteAssets in Hin. simpl in Hin.
    destruct Hin as [<-|[<-|[<-|[<-|[<-|[<-|[]]]]]]]; discriminate. }
  pose proof (endsWith_append baseAsset quoteAsset) as Hhit.
  assert (Hfront : forall n, n = String.length quoteAsset -> n <> O ->
            slice_front n (baseAsset +:+ quoteAsset) = baseAsset).
  { intros n -> Hn. unfold slice_front.
    destruct (String.length quoteAsset) eqn:El; [contradiction|].
    rewrite length_append, El.
    replace (String.length baseAsset + S n - S n)%nat with (String.length baseAsset) by lia.
    apply substring_append_front. }
  unfold quoteAssets in *. simpl in Hin.
  destruct Hin as [<-|[<-|[<-|[<-|[<-|[<-|[]]]]]]]; simpl List.find;
    repeat (rewrite Hmiss by discriminate);
    rewrite Hhit; f_equal; apply Hfront; simpl; congruence.
Qed.

Lemma parse_after_format_witness :
  parseExchangeSymbol (formatExchangeSymbol "DOGE" "BTC") = mkParsedSymbol "DOGE" "BTC".
Proof.
  apply (parse_after_format "DOGE" "BTC"). unfold quoteAssets. simpl. right. left. reflexivity.
Defined.

(** ** Default token symbols *)

Lemma existsb_eqb_In (x : string) (l : list string) :
  existsb (String.eqb x) l = true <-> In x l.
Proof.
  rewrite existsb_exists. split.
  - intros (y & Hin & Heq). apply String.eqb_eq in Heq. now subst.
  - intros Hin. exists x. split; [exact Hin | apply String.eqb_refl].
Qed.

Lemma set_add_In (x s : string) (acc : list string) :
  In s (set_add x acc) <-> s = x \/ In s acc.
Proof.
  unfold set_add. destruct (existsb (String.eqb x) acc) eqn:E.
  - apply existsb_eqb_In in E. split; [now right | intros [->|H]; trivial].
  - rewrite in_app_iff. simpl. split; intros H.
    + destruct H as [H|[H|[]]]; [now right | now left].
    + destruct H as [->|H]; [right; now left | now left].
Qed.

Lemma set_add_NoDup (x : string) (acc : list string) :
  List.NoDup acc -> List.NoDup (set_add x acc).
Proof.
  intros Hnd. unfold set_add. destruct (existsb (String.eqb x) acc) eqn:E; trivial.
  apply NoDup_rev in Hnd. rewrite <- (rev_involutive (acc ++ [x])), rev_app_distr.
  apply NoDup_rev. simpl. constructor; [|exact Hnd].
  rewrite <- in_rev, <- existsb_eqb_In. now rewrite E.
Qed.

Lemma tokenSet_fold (pairs : list MarketPair) :
  forall acc : list string,
    List.NoDup acc ->
    let result :=
      fold_left
        (fun tokenSet pair =>
           set_add (toUpperCase (quoteAsset pair))
                   (set_add (toUpperCase (baseAsset pair)) tokenSet))
        pairs acc in
    List.NoDup result
    /\ forall s, In s result <->
         In s acc \/ exists pair, In pair pairs /\
           (s = toUpperCase (baseAsset pair) \/ s = toUpperCase (quoteAsset pair)).
Proof.
  induction pairs as [|p pairs IH]; intros acc Hnd; simpl.
  - split; [exact Hnd|]. intros s. split; [now left | intros [H|(p & [] & _)]; exact H].
  - destruct (IH _ (set_add_NoDup (toUpperCase (quoteAsset p)) _
                      (set_add_NoDup (toUpperCase (baseAsset p)) _ Hnd))) as [Hnd' Hin'].
    split; [exact Hnd'|]. intros s. rewrite Hin', !set_add_In. split.
    + intros [[->|[->|H]]|(p' & Hp' & Hs)].
      * right. exists p. split; [now left | now right].
      * right. exists p. split; [now left | now left].
      * now left.
      * right. exists p'. split; [now right | exact Hs].
    + intros [H|(p' & [<-|Hp'] & Hs)].
      * left. right. now right.
      * left. destruct Hs as [->| ->]; [right; now left | now left].
      * right. exists p'. split; trivial.
Qed.

(** X3. [getDefaultTokenSymbols] lists every upper-cased base and quote
    asset of the configured pairs, nothing else, and each exactly once. *)
Theorem default_token_symbols_distinct_and_complete (marketPairs : list MarketPair) :
  List.NoDup (getDefaultTokenSymbols marketPairs)
  /\ forall s, In s (getDefaultTokenSymbols marketPairs) <->
       exists pair, In pair marketPairs /\
         (s = toUpperCase (baseAsset pair) \/ s = toUpperCase (quoteAsset pair)).
Proof.
  destruct (tokenSet_fold marketPairs [] (List.NoDup_nil _)) as [Hnd Hin].
  split; [exact Hnd|]. intros s. unfold getDefaultTokenSymbols. rewrite Hin.
  split; [intros [[]|H]; exact H | now right].
Qed.

(** ** Cost estimates against reservation and settlement *)

Lemma SFmul_comm (x y : spec_float) : SFmul prec emax x y = SFmul prec emax y x.
Proof.
  destruct x as [sx|sx| |sx mx ex], y as [sy|sy| |sy my ey]; simpl;
    try reflexivity; try (now rewrite xorb_comm).
  now rewrite xorb_comm, Pos.mul_comm, Z.add_comm.
Qed.

(** Multiplication of binary64 numbers commutes. *)
Lemma float_mul_comm (x y : float) : (x * y = y * x)%float.
Proof.
  rewrite <- (FloatAxioms.SF2Prim_Prim2SF (x * y)), <- (FloatAxioms.SF2Prim_Prim2SF (y * x)).
  rewrite !FloatAxioms.mul_spec. unfold FloatAxioms.SF64mul. now rewrite SFmul_comm.
Qed.

Lemma estimate_buy_total (p q : float) :
  est_total (estimateOrderCost BUY q p None) = buyTotal p q.
Proof.
  unfold estimateOrderCost, buyTotal, TRADING_FEE. simpl.
  now rewrite (float_mul_comm q p).
Qed.

(** X4. The total that [estimateOrderCost] announces for a BUY (default
    fee rate) is exactly what the reserve step requires: the order passes
    [validateUserBalance] precisely when the available balance is not below
    the estimate, the estimate is the amount moved to reserved, and otherwise
    it is the amount reported as required. *)
Theorem estimate_predicts_buy_reservation (db : Db) (uid : Z) (marketPair : MarketPair)
    (p q : float) (b : CryptoBalance) :
  uid <> 0 -> positive p -> positive q ->
  row db uid (quoteAsset marketPair) = Some b ->
  let cost := estimateOrderCost BUY q p None in
  let available := parseFloat_or0 (availableBalance b) in
  est_fee cost = calculateTradingFee (est_subtotal cost) None
  /\ validateUserBalance uid marketPair BUY p q db =
       if (available <? est_total cost)%float then
         Throw (Custom (mkCustomError
           ("Insufficient " +:+ quoteAsset marketPair +:+ " balance. Required: "
            +:+ Number_toString (est_total cost) +:+ ", Available: "
            +:+ Number_toString available) 400))
       else
         Return (tt, set_balances
           (<[(uid, quoteAsset marketPair) :=
                mkBalance (available - est_total cost)
                          (parseFloat_or0 (reservedBalance b) + est_total cost)]>
              (balances db)) db).
Proof.
  intros Huid Hp Hq Hrow cost available. split; [reflexivity|].
  unfold cost. rewrite estimate_buy_total. unfold available.
  destruct (parseFloat_or0 (availableBalance b) <? buyTotal p q)%float eqn:E.
  - now apply validateUserBalance_buy_insufficient.
  - now apply validateUserBalance_buy_ok.
Qed.

Lemma estimate_predicts_buy_reservation_witness :
  est_total (estimateOrderCost BUY 0.1 50000 None) = 5005%float
  /\ validateUserBalance 1 Sample.pair BUY 50000 0.1 Sample.db =
       Return (tt, set_balances
                     (<[(1, "USDT"%string) := mkBalance 4995 10005]> (balances Sample.db))
                     Sample.db).
Proof.
  split; [reflexivity|].
  etransitivity.
  - apply (estimate_predicts_buy_reservation Sample.db 1 Sample.pair 50000 0.1
             (mkBalance 10000 5000)).
    + lia.
    + split; reflexivity.
    + split; reflexivity.
    + reflexivity.
  - vm_compute. reflexivity.
Defined.

(** X5. For a SELL the net amount of [estimateOrderCost] (default fee
    rate) is exactly the quote amount that [createTradeHistory] reports for
    the trade, and the estimated fee is the recorded fee. *)
Theorem estimate_predicts_sell_proceeds (db : Db) (uid mpid oid : Z)
    (baseAsset quoteAsset externalTradeId : string) (p q : float) (order : TradingOrder) :
  findOrderByPk oid db = Some order ->
  orderType order = SELL ->
  falsy p || (p <=? 0)%float = false ->
  exists details db',
    createTradeHistory uid mpid oid baseAsset quoteAsset p q externalTradeId db
      = Return (details, db')
    /\ quoteAmount details = est_total (estimateOrderCost SELL q p None)
    /\ fee details = est_fee (estimateOrderCost SELL q p None)
    /\ baseAmount details = (- q)%float.
Proof.
  intros Hfind Hside Hprice.
  unfold createTradeHistory, try_catch, bind at 1, get.
  rewrite Hfind, Hprice. unfold bind at 1, ret. rewrite Hside.
  unfold bind, insertTrade, modify, ret.
  eexists _, _. split; [reflexivity|]. simpl.
  unfold TRADING_FEE. rewrite (float_mul_comm q p). repeat split; reflexivity.
Qed.

Lemma estimate_predicts_sell_proceeds_witness :
  exists details db',
    createTradeHistory 1 1 1 "BTC" "USDT" 50000 0.1 "12345"
      (set_orders [mkOrder 1 1 1 SELL LIMIT (Some 50000%float) 0.1%float
                     (StatusName "PLACED") (Some "12345"%string)] Sample.db)
      = Return (details, db')
    /\ quoteAmount details = 4995%float.
Proof.
  destruct (estimate_predicts_sell_proceeds
              (set_orders [mkOrder 1 1 1 SELL LIMIT (Some 50000%float) 0.1%float
                             (StatusName "PLACED") (Some "12345"%string)] Sample.db)
              1 1 1 "BTC" "USDT" "12345" 50000 0.1
              (mkOrder 1 1 1 SELL LIMIT (Some 50000%float) 0.1%float
                 (StatusName "PLACED") (Some "12345"%string)))
    as (details & db' & H & Hq & _).
  - reflexivity.
  - reflexivity.
  - reflexivity.
  - exists details, db'. split; [exact H|]. rewrite Hq. reflexivity.
Defined.

(** ** Signs of binary64 numbers *)

Lemma Prim2SF_zero : Prim2SF 0 = S754_zero false.
Proof. reflexivity. Qed.

Lemma SFcompare_refl_finite (s : bool) (m : BinNums.positive) (e : Z) :
  SFcompare (S754_finite s m e) (S754_finite s m e) = Some Eq.
Proof.
  simpl. rewrite Z.compare_refl, Pos.compare_cont_refl. now destruct s.
Qed.

(** A number passes the "not NaN and not [<= 0]" test exactly when it is
    greater than zero. *)
Lemma positive_iff (x : float) : positive x <-> (0 <? x)%float = true.
Proof.
  unfold positive, is_nan.
  rewrite FloatAxioms.ltb_spec, FloatAxioms.leb_spec, FloatAxioms.eqb_spec, Prim2SF_zero.
  unfold SFltb, SFleb, SFeqb.
  destruct (Prim2SF x) as [s|s| |s m e] eqn:E.
  - simpl. destruct s; split; intros H; try discriminate; destruct H; discriminate.
  - simpl. destruct s; split; intros H; try discriminate;
      try (destruct H; discriminate); now split.
  - simpl. split; intros H; [destruct H|]; discriminate.
  - rewrite SFcompare_refl_finite. simpl.
    destruct s; split; intros H; try discriminate;
      try (destruct H; discriminate); now split.
Qed.

Lemma positive_not_falsy (x : float) :
  positive x -> falsy x || (x <=? 0)%float = false.
Proof.
  intros [Hnan Hle]. unfold falsy. rewrite Hnan, Hle, !orb_false_r.
  unfold is_zero. rewrite FloatAxioms.eqb_spec.
  rewrite FloatAxioms.leb_spec in Hle. change (Prim2SF zero) with (S754_zero false).
  rewrite Prim2SF_zero in Hle. unfold SFeqb, SFleb in *.
  destruct (SFcompare (Prim2SF x) (S754_zero false)) as [[]|]; trivial; discriminate.
Qed.

Lemma usable_price_positive (x : float) :
  usable_price (Some x) = true -> positive x.
Proof.
  unfold usable_price. intros H. apply andb_prop in H as [_ H].
  now apply positive_iff.
Qed.

(** ** The reserve step, characterised *)

Lemma validateUserBalance_inv (db db' : Db) (uid : Z) (marketPair : MarketPair)
    (side : OrderType) (p q : float) :
  validateUserBalance uid marketPair side p q db = Return (tt, db') ->
  uid <> 0 /\ positive p /\ positive q
  /\ exists b,
       balances db !! (uid, reserveToken marketPair side) = Some b
       /\ (parseFloat_or0 (availableBalance b) <? reserveAmount side p q)%float = false
       /\ db' = set_balances
                  (<[(uid, reserveToken marketPair side) :=
                       mkBalance
                         (parseFloat_or0 (availableBalance b) - reserveAmount side p q)
                         (parseFloat_or0 (reservedBalance b) + reserveAmount side p q)]>
                     (balances db)) db.
Proof.
  intros H. unfold validateUserBalance in H.
  destruct (uid =? 0) eqn:Euid; [discriminate|]. apply Z.eqb_neq in Euid.
  destruct (is_nan p) eqn:Enp; [discriminate|].
  destruct (p <=? 0)%float eqn:Elp; [discriminate|].
  destruct (is_nan q) eqn:Enq; [discriminate|].
  destruct (q <=? 0)%float eqn:Elq; [discriminate|].
  simpl in H. split; [exact Euid|]. split; [now split|]. split; [now split|].
  revert H. tx_unfold.
  destruct side; simpl reserveToken; simpl reserveAmount; unfold buyTotal.
  - destruct (balances db !! (uid, quoteAsset marketPair)) as [b|] eqn:Erow;
      [|discriminate].
    destruct (parseFloat_or0 (availableBalance b)
              <? p * q + p * q * TRADING_FEE)%float eqn:Efunds; [discriminate|].
    intros [= <-]. exists b. now repeat split.
  - destruct (balances db !! (uid, baseAsset marketPair)) as [b|] eqn:Erow;
      [|discriminate].
    destruct (parseFloat_or0 (availableBalance b) <? q)%float eqn:Efunds; [discriminate|].
    intros [= <-]. exists b. now repeat split.
Qed.

(** X6. [validateUserBalance] succeeds only for a known user, a positive
    price and quantity, and an existing balance row of the asset the order
    spends (quote asset for BUY, base asset for SELL) whose available
    balance is not below the required amount (notional plus fee for BUY, the
    quantity for SELL). It then moves exactly that amount from available to
    reserved in that row and changes nothing else: no other row, no order,
    no trade, and it never creates a row. *)
Theorem reserve_success_characterised (db db' : Db) (uid : Z) (marketPair : MarketPair)
    (side : OrderType) (p q : float) :
  validateUserBalance uid marketPair side p q db = Return (tt, db') ->
  let token := reserveToken marketPair side in
  let amount := reserveAmount side p q in
  uid <> 0 /\ positive p /\ positive q
  /\ exists b,
       row db uid token = Some b
       /\ (parseFloat_or0 (availableBalance b) <? amount)%float = false
       /\ row db' uid token =
            Some (mkBalance (parseFloat_or0 (availableBalance b) - amount)
                            (parseFloat_or0 (reservedBalance b) + amount))
       /\ (forall u t, (u, t) <> (uid, token) -> row db' u t = row db u t)
       /\ orders db' = orders db /\ trades db' = trades db
       /\ marketPairs db' = marketPairs db.
Proof.
  intros H token amount. subst token amount.
  destruct (validateUserBalance_inv _ _ _ _ _ _ _ H)
    as (Huid & Hp & Hq & b & Hrow & Hfunds & ->).
  split; [exact Huid|]. split; [exact Hp|]. split; [exact Hq|].
  exists b. split; [exact Hrow|]. split; [exact Hfunds|].
  split; [apply row_set_balances_eq|]. split; [|repeat split].
  intros u t Hne. apply row_set_balances_ne. congruence.
Qed.

Lemma reserve_success_characterised_witness :
  row (set_balances (<[(1, "BTC"%string) := mkBalance 0.5 0.5]> (balances Sample.db))
                    Sample.db) 1 "USDT" = row Sample.db 1 "USDT".
Proof.
  destruct (reserve_success_characterised Sample.db
              (set_balances (<[(1, "BTC"%string) := mkBalance 0.5 0.5]> (balances Sample.db))
                            Sample.db)
              1 Sample.pair SELL 50000 0.5)
    as (_ & _ & _ & b & _ & _ & _ & Hframe & _).
  - vm_compute. reflexivity.
  - apply Hframe. discriminate.
Defined.

(** ** The trade record *)

(** What [createTradeHistory] does once the price to use is settled. *)
Lemma createTradeHistory_effective (db : Db) (uid mpid oid : Z)
    (base quote ext : string) (p q : float) (order : TradingOrder) :
  findOrderByPk oid db = Some order ->
  falsy p || (p <=? 0)%float = false ->
  createTradeHistory uid mpid oid base quote p q ext db =
    Return
      (mkSyncDetails uid base quote
         (match orderType order with BUY => q | SELL => (- q)%float end)
         (match orderType order with
          | BUY => (- (p * q + p * q * TRADING_FEE))%float
          | SELL => (p * q - p * q * TRADING_FEE)%float
          end)
         p q (p * q * TRADING_FEE)%float oid (1 + Z.of_nat (length (trades db))),
       set_trades
         (trades db ++
            [mkTrade uid oid mpid base quote p q (Some (p * q)%float)
                     (Some (p * q * TRADING_FEE)%float) (Some "USDT"%string) ext])
         db).
Proof.
  intros Hfind Hprice.
  unfold createTradeHistory, try_catch, bind at 1, get.
  rewrite Hfind, Hprice. unfold bind at 1, ret.
  destruct (orderType order); reflexivity.
Qed.

Lemma createTradeHistory_unusable_price (db : Db) (uid mpid oid : Z)
    (base quote ext : string) (p q : float) (order : TradingOrder) :
  findOrderByPk oid db = Some order ->
  falsy p || (p <=? 0)%float = true ->
  createTradeHistory uid mpid oid base quote p q ext db =
    match order_price order with
    | Some p0 =>
        if usable_price (Some p0)
        then createTradeHistory uid mpid oid base quote p0 q ext db
        else Throw (Custom (mkCustomError
                      "Cannot process trade without a valid price" 500))
    | None => Throw (Custom (mkCustomError
                      "Cannot process trade without a valid price" 500))
    end.
Proof.
  intros Hfind Hbad.
  destruct (order_price order) as [p0|] eqn:Ep0.
  - destruct (usable_price (Some p0)) eqn:Eu.
    + rewrite (createTradeHistory_effective db uid mpid oid base quote ext p0 q order
                 Hfind (positive_not_falsy _ (usable_price_positive _ Eu))).
      unfold createTradeHistory, try_catch, bind at 1, get.
      rewrite Hfind, Hbad, Ep0, Eu. unfold bind at 1, ret.
      destruct (orderType order); reflexivity.
    + unfold createTradeHistory, try_catch, bind at 1, get.
      rewrite Hfind, Hbad, Ep0, Eu. reflexivity.
  - unfold createTradeHistory, try_catch, bind at 1, get.
    rewrite Hfind, Hbad, Ep0. reflexivity.
Qed.

(** X7. When the price handed to [createTradeHistory] is zero, negative or
    NaN, the order's own price is used instead: if that price is positive
    the call behaves exactly as if it had been given it, with the same
    result and the same trade recorded; if the order has no positive price
    either, the call fails with status 500. An unknown order id fails with
    status 404 whatever the price. *)
Theorem trade_price_falls_back_to_order_price (db : Db) (uid mpid oid : Z)
    (base quote ext : string) (p q : float) :
  falsy p || (p <=? 0)%float = true ->
  (findOrderByPk oid db = None ->
     createTradeHistory uid mpid oid base quote p q ext db =
       Throw (Custom (mkCustomError "Order not found when creating trade history" 404)))
  /\ forall order, findOrderByPk oid db = Some order ->
      (forall p0, order_price order = Some p0 -> positive p0 ->
         createTradeHistory uid mpid oid base quote p q ext db =
         createTradeHistory uid mpid oid base quote p0 q ext db)
      /\ ((forall p0, order_price order = Some p0 -> ~ positive p0) ->
          createTradeHistory uid mpid oid base quote p q ext db =
            Throw (Custom (mkCustomError
                             "Cannot process trade without a valid price" 500))).
Proof.
  intros Hbad. split.
  - intros Hfind. unfold createTradeHistory, try_catch, bind at 1, get.
    now rewrite Hfind.
  - intros order Hfind.
    pose proof (createTradeHistory_unusable_price db uid mpid oid base quote ext p q
                  order Hfind Hbad) as Heq.
    split.
    + intros p0 Hp0 Hpos. rewrite Heq, Hp0.
      assert (usable_price (Some p0) = true) as ->; [|reflexivity].
      unfold usable_price. apply positive_iff in Hpos as Hgt. rewrite Hgt, andb_true_r.
      pose proof (positive_not_falsy _ Hpos) as Hnf.
      apply orb_false_elim in Hnf as [-> _]. reflexivity.
    + intros Hnone. rewrite Heq. destruct (order_price order) as [p0|]; [|reflexivity].
      destruct (usable_price (Some p0)) eqn:Eu; [|reflexivity].
      exfalso. apply (Hnone p0 eq_refl). now apply usable_price_positive.
Qed.

Lemma trade_price_falls_back_to_order_price_witness :
  createTradeHistory 1 1 1 "BTC" "USDT" 0 0.1 "12345" (Sample.db_with "PLACED") =
  createTradeHistory 1 1 1 "BTC" "USDT" 50000 0.1 "12345" (Sample.db_with "PLACED").
Proof.
  apply (proj1 (proj2 (trade_price_falls_back_to_order_price (Sample.db_with "PLACED")
                         1 1 1 "BTC" "USDT" "12345" 0 0.1 eq_refl)
                      (Sample.order "PLACED") eq_refl) 50000%float eq_refl).
  split; reflexivity.
Defined.

(** X8. Whenever [createTradeHistory] succeeds, the order exists, exactly
    one trade is appended, carrying notional [price * quantity], fee
    [notional * 0.001] and fee currency USDT whatever the pair's quote asset
    is, and neither balances nor orders are touched. For a BUY the reported
    quote amount is minus the amount [validateUserBalance] reserves for that
    price and quantity; for a SELL it is notional minus fee. *)
Theorem trade_record_on_success (db db' : Db) (uid mpid oid : Z)
    (base quote ext : string) (p q : float) (details : SyncDetails) :
  createTradeHistory uid mpid oid base quote p q ext db = Return (details, db') ->
  exists order e,
    findOrderByPk oid db = Some order
    /\ positive e
    /\ (e = p \/ (falsy p || (p <=? 0)%float = true /\ order_price order = Some e))
    /\ trades db' =
         trades db ++ [mkTrade uid oid mpid base quote e q (Some (e * q)%float)
                         (Some (e * q * TRADING_FEE)%float) (Some "USDT"%string) ext]
    /\ balances db' = balances db /\ orders db' = orders db
    /\ fee details = (e * q * TRADING_FEE)%float
    /\ match orderType order with
       | BUY => baseAmount details = q
                /\ quoteAmount details = (- reserveAmount BUY e q)%float
       | SELL => baseAmount details = (- q)%float
                 /\ quoteAmount details = (e * q - e * q * TRADING_FEE)%float
       end.
Proof.
  intros H.
  destruct (findOrderByPk oid db) as [order|] eqn:Hfind.
  2:{ revert H. unfold createTradeHistory, try_catch, bind at 1, get.
      rewrite Hfind. discriminate. }
  exists order.
  destruct (falsy p || (p <=? 0)%float) eqn:Hbad.
  - rewrite (createTradeHistory_unusable_price _ _ _ _ _ _ _ _ _ _ Hfind Hbad) in H.
    destruct (order_price order) as [p0|] eqn:Ep0; [|discriminate].
    destruct (usable_price (Some p0)) eqn:Eu; [|discriminate].
    pose proof (usable_price_positive _ Eu) as Hpos.
    rewrite (createTradeHistory_effective _ _ _ _ _ _ _ _ _ _ Hfind
               (positive_not_falsy _ Hpos)) in H.
    injection H as <- <-. exists p0. split; [reflexivity|]. split; [exact Hpos|].
    split; [right; now split|]. split; [reflexivity|].
    repeat (split; [reflexivity|]). destruct (orderType order); split; reflexivity.
  - rewrite (createTradeHistory_effective _ _ _ _ _ _ _ _ _ _ Hfind Hbad) in H.
    injection H as <- <-. exists p. split; [reflexivity|]. split.
    { unfold falsy in Hbad. apply orb_false_elim in Hbad as [Hf Hle].
      apply orb_false_elim in Hf as [_ Hnan]. now split. }
    split; [now left|]. split; [reflexivity|].
    repeat (split; [reflexivity|]). destruct (orderType order); split; reflexivity.
Qed.

Lemma trade_record_on_success_witness :
  exists e,
    trades (set_trades
              [mkTrade 1 1 1 "BTC" "EUR" 50000 0.1 (Some 5000%float) (Some 5%float)
                       (Some "USDT"%string) "12345"]
              (Sample.db_with "PLACED")) =
    trades (Sample.db_with "PLACED") ++
      [mkTrade 1 1 1 "BTC" "EUR" e 0.1 (Some (e * 0.1)%float)
               (Some (e * 0.1 * TRADING_FEE)%float) (Some "USDT"%string) "12345"].
Proof.
  destruct (trade_record_on_success (Sample.db_with "PLACED")
              (set_trades
                 [mkTrade 1 1 1 "BTC" "EUR" 50000 0.1 (Some 5000%float) (Some 5%float)
                          (Some "USDT"%string) "12345"]
                 (Sample.db_with "PLACED"))
              1 1 1 "BTC" "EUR" "12345" 50000 0.1
              (mkSyncDetails 1 "BTC" "EUR" 0.1 (-5005) 50000 0.1 5 1 1))
    as (order & e & _ & _ & _ & Ht & _).
  - vm_compute. reflexivity.
  - exists e. exact Ht.
Defined.

(** ** Balance updates *)

Lemma updateReservedBalance_eq (db : Db) (uid : Z) (token : string) (amount : float) :
  updateReservedBalance uid token amount db =
    Return (tt, set_balances
      (<[(uid, token) :=
           mkBalance (availableBalance (rowOrZero db uid token))
                     (reservedBalance (rowOrZero db uid token) + amount)]>
         (balances db)) db).
Proof.
  unfold updateReservedBalance, findOrCreateBalance, rowOrZero, row. tx_unfold.
  destruct (balances db !! (uid, token)) as [b|] eqn:E; simpl.
  - reflexivity.
  - unfold set_balances; simpl. now rewrite insert_insert_eq.
Qed.

(** X9. [updateBalance] also serves a user who has no row for the asset:
    the row is first created with zero balances, then the amount is added
    to the available balance of that one row. The reserved balance of the row, every other row and all
    orders and trades stay as they were. *)
Theorem updateBalance_creates_and_adds (db : Db) (uid : Z) (token : string)
    (amount : float) :
  exists db',
    updateBalance uid token amount db = Return (tt, db')
    /\ row db' uid token =
         Some (match row db uid token with
               | Some b => mkBalance (availableBalance b + amount) (reservedBalance b)
               | None => mkBalance (0 + amount) 0
               end)
    /\ (forall u t, (u, t) <> (uid, token) -> row db' u t = row db u t)
    /\ orders db' = orders db /\ trades db' = trades db.
Proof.
  eexists. split; [apply updateBalance_eq|].
  split; [|split; [|split; reflexivity]].
  - rewrite row_set_balances_eq. unfold rowOrZero.
    destruct (row db uid token); reflexivity.
  - intros u t Hne. apply row_set_balances_ne. congruence.
Qed.

(** X10. Crediting the available balance and changing the reserved
    balance are independent: [updateBalance] and [updateReservedBalance]
    give the same tables in either order, on the same row or on different
    rows, present or not. *)
Theorem balance_updates_commute (db : Db) (u1 u2 : Z) (t1 t2 : string) (a r : float) :
  bind (updateBalance u1 t1 a) (fun _ => updateReservedBalance u2 t2 r) db =
  bind (updateReservedBalance u2 t2 r) (fun _ => updateBalance u1 t1 a) db.
Proof.
  unfold bind. rewrite (updateBalance_eq db), (updateReservedBalance_eq db).
  cbv beta iota. rewrite updateBalance_eq, updateReservedBalance_eq.
  f_equal. f_equal. unfold set_balances; simpl. f_equal.
  unfold rowOrZero, row; simpl.
  destruct (decide ((u1, t1) = (u2, t2))) as [E|E].
  - injection E as <- <-. rewrite !lookup_insert_eq, !insert_insert_eq. reflexivity.
  - rewrite (lookup_insert_ne _ (u1, t1) (u2, t2)) by exact E.
    rewrite (lookup_insert_ne _ (u2, t2) (u1, t1)) by congruence.
    apply insert_insert_ne. congruence.
Qed.

(** ** Order creation *)

(** Case analysis on an innermost [match] of a hypothesis. *)
Ltac destruct_match_in H :=
  match type of H with
  | context [match ?x with _ => _ end] =>
      lazymatch x with
      | context [match _ with _ => _ end] => fail
      | _ => destruct x eqn:?
      end
  end.

Lemma prepareOrder_inv (ex : Exchange) (uid mpid : Z) (style : ExecutionType)
    (price : option float) (quantity : float) (db d : Db) (prep : Prepared) :
  prepareOrder ex uid mpid style price quantity db = Return (prep, d) ->
  d = db /\ uid <> 0
  /\ marketPairs db !! mpid = Some (p_marketPair prep)
  /\ p_symbol prep = baseAsset (p_marketPair prep) +:+ quoteAsset (p_marketPair prep).
Proof.
  unfold prepareOrder, validateInput. intros H.
  destruct (uid =? 0) eqn:Euid; [discriminate|]. apply Z.eqb_neq in Euid.
  revert H. tx_unfold. intros H.
  repeat (destruct_match_in H; try discriminate).
  all: injection H as <- <-; repeat split; try assumption; reflexivity.
Qed.

Lemma nextOrderId_fresh (db : Db) (o : TradingOrder) :
  In o (orders db) -> id o < nextOrderId db.
Proof.
  unfold nextOrderId. induction (orders db) as [|a l IH]; simpl; [tauto|].
  intros [->|Hin]; [lia|]. specialize (IH Hin). lia.
Qed.

Lemma save_appended (db : Db) (l : list TradingOrder) (fresh new : TradingOrder) :
  (forall o, In o l -> id o < id new) -> id fresh = id new ->
  map (fun o' => if id o' =? id new then new else o') (l ++ [fresh]) = l ++ [new].
Proof.
  intros Hlt Hid. rewrite map_app. simpl. rewrite Hid, Z.eqb_refl. f_equal.
  rewrite <- (map_id l) at 2. apply map_ext_in. intros o Hin.
  specialize (Hlt o Hin). destruct (id o =? id new) eqn:E; [|reflexivity].
  apply Z.eqb_eq in E. lia.
Qed.

Lemma submitOrder_inv (ex : Exchange) (uid mpid : Z) (side : OrderType)
    (style : ExecutionType) (prep : Prepared) (db db' : Db) (order : TradingOrder) :
  submitOrder ex uid mpid side style prep db = Return (order, db') ->
  exists db1 resp,
    validateUserBalance uid (p_marketPair prep) side (p_adjustedPrice prep)
      (p_adjustedQuantity prep) db = Return (tt, db1)
    /\ placeOrderOnCEX ex side (p_symbol prep) style (Some (p_adjustedPrice prep))
         (p_adjustedQuantity prep) = Return resp
    /\ String.eqb (resp_status resp) "FILLED" = false
    /\ let pending :=
         mkOrder (nextOrderId db1) uid mpid side style (Some (p_adjustedPrice prep))
                 (p_adjustedQuantity prep) (StatusName "PENDING") None in
       let placed :=
         set_status (StatusName "PLACED")
           (set_externalOrderId (Some (resp_orderId resp)) pending) in
       let recorded := set_orders (orders db1 ++ [pending]) db1 in
       order = placed
       /\ db' = set_orders (map (fun o' => if id o' =? id order then order else o')
                                (orders recorded)) recorded.
Proof.
  unfold submitOrder. intros H.
  unfold bind at 1 in H.
  destruct (validateUserBalance uid (p_marketPair prep) side (p_adjustedPrice prep)
              (p_adjustedQuantity prep) db) as [[[] db1]|t] eqn:Eres; [|discriminate].
  unfold bind at 1, get in H. unfold bind at 1, insertOrder, modify in H.
  unfold bind at 1, lift in H.
  destruct (placeOrderOnCEX ex side (p_symbol prep) style (Some (p_adjustedPrice prep))
              (p_adjustedQuantity prep)) as [resp|t] eqn:Eex; [|discriminate].
  exists db1, resp. split; [reflexivity|]. split; [reflexivity|]. cbv zeta.
  destruct (String.eqb (resp_status resp) "FILLED") eqn:Est.
  - unfold bind at 1 in H. rewrite settleFilled_refused in H. discriminate.
  - split; [reflexivity|].
    unfold bind, saveOrder, modify, ret in H. injection H as <- <-. now split.
Qed.

(** X11. [createOrder] checks its arguments in a fixed order before doing
    anything else: a zero user id gives 400, a zero market pair id 404, a
    LIMIT order without a positive price 400, and a quantity that is zero,
    negative or NaN 400. Such a call is rejected whatever the exchange
    would answer, and the tables stay as they were. *)
Theorem createOrder_rejects_bad_input (ex : Exchange) (uid mpid : Z) (side : OrderType)
    (style : ExecutionType) (price : option float) (quantity : float) (db : Db) :
  let bad_price :=
    match style with
    | LIMIT => match price with
               | Some p => falsy p || (p <=? 0)%float
               | None => true
               end
    | MARKET => false
    end in
  let bad_quantity := falsy quantity || (quantity <=? 0)%float in
  (uid =? 0) || (mpid =? 0) || bad_price || bad_quantity = true ->
  createOrder ex uid mpid side style price quantity db =
    (Failed (if uid =? 0 then mkCustomError "Invalid or missing userId" 400
             else if mpid =? 0 then mkCustomError "Market pair not found" 404
             else if bad_price then mkCustomError "Price required for LIMIT orders" 400
             else mkCustomError "Invalid quantity" 400),
     db).
Proof.
  intros bad_price bad_quantity Hbad.
  unfold createOrder, inTransaction, createOrder_body, prepareOrder, validateInput.
  fold bad_price. fold bad_quantity. unfold bind at 1. unfold bind at 1.
  destruct (uid =? 0); [reflexivity|].
  destruct (mpid =? 0); [reflexivity|].
  destruct bad_price; [reflexivity|].
  destruct bad_quantity; [reflexivity|]. discriminate.
Qed.

Lemma createOrder_rejects_bad_input_witness :
  createOrder (Sample.exchange (Sample.answer "FILLED") (Sample.answer "NEW")
                               (Sample.answer "CANCELED"))
              1 1 BUY LIMIT None 0.1%float Sample.db =
    (Failed (mkCustomError "Price required for LIMIT orders" 400), Sample.db).
Proof.
  apply (createOrder_rejects_bad_input
           (Sample.exchange (Sample.answer "FILLED") (Sample.answer "NEW")
                            (Sample.answer "CANCELED"))
           1 1 BUY LIMIT None 0.1%float Sample.db).
  reflexivity.
Defined.

Lemma createOrder_inv (ex : Exchange) (uid mpid : Z) (side : OrderType)
    (style : ExecutionType) (price : option float) (requested : float)
    (db db' : Db) (order : TradingOrder) :
  createOrder ex uid mpid side style price requested db = (Fulfilled order, db') ->
  exists prep,
    prepareOrder ex uid mpid style price requested db = Return (prep, db)
    /\ submitOrder ex uid mpid side style prep db = Return (order, db').
Proof.
  unfold createOrder, inTransaction, createOrder_body. intros H.
  unfold bind in H.
  destruct (prepareOrder ex uid mpid style price requested db) as [[prep d]|t] eqn:Ep;
    [|discriminate].
  destruct (prepareOrder_inv _ _ _ _ _ _ _ _ _ Ep) as (-> & _).
  destruct (submitOrder ex uid mpid side style prep db) as [[o d']|t] eqn:Es;
    [|discriminate].
  injection H as <- <-. now exists prep.
Qed.

(** X12. For a MARKET order the price argument plays no role: the call
    gives the same result and the same tables with any price or none, and
    the price stored with a created order is the one read from the ticker
    for the pair's symbol. *)
Theorem market_order_uses_ticker_price (ex : Exchange) (uid mpid : Z) (side : OrderType)
    (price : option float) (requested : float) (db db' : Db) (order : TradingOrder) :
  createOrder ex uid mpid side MARKET price requested db = (Fulfilled order, db') ->
  (forall other, createOrder ex uid mpid side MARKET other requested db
                 = (Fulfilled order, db'))
  /\ exists marketPair text,
       marketPairs db !! mpid = Some marketPair
       /\ tickerPrice ex (baseAsset marketPair +:+ quoteAsset marketPair)
            = Resolved (Some text)
       /\ order_price order = Some (parseFloat text).
Proof.
  intros H. split; [intros other; exact H|].
  destruct (createOrder_inv _ _ _ _ _ _ _ _ _ _ H) as (prep & Hprep & Hsub).
  destruct (submitOrder_inv _ _ _ _ _ _ _ _ _ Hsub)
    as (db1 & resp & _ & _ & _ & Hcase).
  cbv zeta in Hcase.
  assert (Hprice : order_price order = Some (p_adjustedPrice prep)).
  { destruct Hcase as (-> & _). reflexivity. }
  rewrite Hprice. clear Hcase Hsub Hprice H.
  unfold prepareOrder, validateInput in Hprep. revert Hprep. tx_unfold. intros Hprep.
  repeat (destruct_match_in Hprep; try discriminate).
  injection Hprep as <-. simpl.
  eexists _, _. split; [reflexivity|]. split; [eassumption|reflexivity].
Qed.

Lemma market_order_uses_ticker_price_witness :
  exists order db',
    createOrder (Sample.exchange (Sample.answer "NEW") (Sample.answer "NEW")
                                 (Sample.answer "CANCELED"))
                1 1 SELL MARKET (Some 1%float) 0.5%float Sample.db = (Fulfilled order, db')
    /\ order_price order = Some 50000%float.
Proof.
  destruct (market_order_uses_ticker_price
              (Sample.exchange (Sample.answer "NEW") (Sample.answer "NEW")
                               (Sample.answer "CANCELED"))
              1 1 SELL None 0.5%float Sample.db
              (set_orders
                 [mkOrder 1 1 1 SELL MARKET (Some 50000%float) 0.5%float
                          (StatusName "PLACED") (Some "12345"%string)]
                 (set_balances (<[(1, "BTC"%string) := mkBalance 0.5 0.5]>
                                  (balances Sample.db)) Sample.db))
              (mkOrder 1 1 1 SELL MARKET (Some 50000%float) 0.5%float
                       (StatusName "PLACED") (Some "12345"%string)))
    as (Hany & _).
  - vm_compute. reflexivity.
  - eexists _, _. split; [apply (Hany (Some 1%float))|]. reflexivity.
Defined.

(** X13. What a successful [createOrder] leaves behind: exactly one new
    order, appended with an id above every earlier one, carrying the
    caller's user, pair, side and execution type, a positive quantity and
    price and the exchange's order id. Its status is PLACED and no trade is
    recorded: a fill reported on submission is never committed. Market
    pairs and the balance rows of every other user are untouched. *)
Theorem created_order_is_recorded (ex : Exchange) (uid mpid : Z) (side : OrderType)
    (style : ExecutionType) (price : option float) (requested : float)
    (db db' : Db) (order : TradingOrder) :
  createOrder ex uid mpid side style price requested db = (Fulfilled order, db') ->
  orders db' = orders db ++ [order]
  /\ (forall o, In o (orders db) -> id o < id order)
  /\ order_userId order = uid /\ marketPairId order = mpid
  /\ orderType order = side /\ executionType order = style
  /\ positive (quantity order)
  /\ (exists p, order_price order = Some p /\ positive p)
  /\ (exists externalId, externalOrderId order = Some externalId)
  /\ status order = StatusName "PLACED" /\ trades db' = trades db
  /\ marketPairs db' = marketPairs db
  /\ (forall u t, u <> uid -> row db' u t = row db u t).
Proof.
  intros H.
  destruct (createOrder_inv _ _ _ _ _ _ _ _ _ _ H) as (prep & Hprep & Hsub).
  destruct (submitOrder_inv _ _ _ _ _ _ _ _ _ Hsub)
    as (db1 & resp & Hval & _ & _ & Hcase).
  destruct (validateUserBalance_inv _ _ _ _ _ _ _ Hval)
    as (_ & Hp & Hq & b & _ & _ & ->).
  clear H Hprep Hsub Hval. cbv zeta in Hcase.
  assert (Hfresh : forall o, In o (orders db) -> id o < nextOrderId db)
    by apply nextOrderId_fresh.
  destruct Hcase as (-> & ->).
  split; [apply (save_appended db); [exact Hfresh|reflexivity]|].
  split; [exact Hfresh|].
  repeat (split; [reflexivity|]).
  split; [exact Hq|]. split; [now eexists|]. split; [now eexists|].
  split; [reflexivity|]. split; [reflexivity|]. split; [reflexivity|].
  intros u t Hu. unfold row. simpl.
  rewrite !lookup_insert_ne by congruence. reflexivity.
Qed.

Lemma created_order_is_recorded_witness :
  let placed := Sample.order "PLACED" in
  let after :=
    set_orders [placed]
      (set_balances (<[(1, "USDT"%string) := mkBalance 4995 10005]>
                       (balances Sample.db)) Sample.db) in
  createOrder (Sample.exchange (Sample.answer "NEW") (Sample.answer "NEW")
                               (Sample.answer "CANCELED"))
              1 1 BUY LIMIT (Some 50000%float) 0.1%float Sample.db = (Fulfilled placed, after)
  /\ orders after = orders Sample.db ++ [placed]
  /\ trades after = trades Sample.db.
Proof.
  cbv zeta.
  assert (H : createOrder (Sample.exchange (Sample.answer "NEW") (Sample.answer "NEW")
                                           (Sample.answer "CANCELED"))
                1 1 BUY LIMIT (Some 50000%float) 0.1%float Sample.db
              = (Fulfilled (Sample.order "PLACED"),
                 set_orders [Sample.order "PLACED"]
                   (set_balances (<[(1, "USDT"%string) := mkBalance 4995 10005]>
                                    (balances Sample.db)) Sample.db)))
    by (vm_compute; reflexivity).
  split; [exact H|].
  split; [exact (proj1 (created_order_is_recorded _ _ _ _ _ _ _ _ _ _ H))|reflexivity].
Defined.

(** ** Cancelling: every way [cancelOrder] can end *)

Lemma checkCexStatus_inv (ex : Exchange) (order : TradingOrder) (symbol : string)
    (db : Db) :
  let saved final :=
    set_orders (map (fun o' => if id o' =? id order
                               then set_status (StatusName final) order else o')
                    (orders db)) db in
  (exists t, checkCexStatus ex order symbol db = Throw t)
  \/ checkCexStatus ex order symbol db = Return (None, db)
  \/ checkCexStatus ex order symbol db
     = Return (Some ("Order already filled"%string,
                     set_status (StatusName "FILLED") order), saved "FILLED"%string)
  \/ exists msg,
       (msg = "Order already canceled"%string
        \/ msg = "Order not found on Binance, marked canceled"%string)
       /\ checkCexStatus ex order symbol db
          = Return (Some (msg, set_status (StatusName "CANCELLED") order),
                    saved "CANCELLED"%string).
Proof.
  cbv zeta. unfold checkCexStatus, getOrderStatusFromCEX. tx_unfold.
  destruct (getOrder ex (externalOrderId order) (Some symbol)) as [resp|e].
  - destruct (String.eqb (resp_status resp) "FILLED"); [right; right; left; reflexivity|].
    destruct (String.eqb (resp_status resp) "CANCELED").
    + right; right; right. eexists. split; [left; reflexivity|reflexivity].
    + right; left; reflexivity.
  - destruct (includes "does not exist" _).
    + right; right; right. eexists. split; [right; reflexivity|reflexivity].
    + left. now eexists.
Qed.

Ltac rolled_back H :=
  injection H as <- <-; left; split; [reflexivity|now eexists].

Lemma cancelOrder_inv (ex : Exchange) (uid oid : Z) (db db' : Db)
    (r : Settled (string * TradingOrder)) :
  cancelOrder ex uid oid db = (r, db') ->
  (db' = db /\ exists e, r = Failed e)
  \/ exists order marketPair msg final,
       List.find (fun o => (id o =? oid) && (order_userId o =? uid)) (orders db)
         = Some order
       /\ status_is "PLACED" (status order) = true
       /\ marketPairs db !! marketPairId order = Some marketPair
       /\ r = Fulfilled (msg, set_status (StatusName final) order)
       /\ let saved :=
            set_orders (map (fun o' => if id o' =? id order
                                       then set_status (StatusName final) order else o')
                            (orders db)) db in
          (final = "FILLED"%string /\ msg = "Order already filled"%string /\ db' = saved)
          \/ (final = "CANCELLED"%string
              /\ (msg = "Order already canceled"%string
                  \/ msg = "Order not found on Binance, marked canceled"%string)
              /\ db' = saved)
          \/ (final = "CANCELLED"%string /\ msg = "Order canceled successfully"%string
              /\ db' = match row db uid (releaseToken order marketPair) with
                       | Some balance =>
                           set_balances
                             (<[(uid, releaseToken order marketPair) :=
                                  mkBalance (availableBalance balance)
                                            (reservedBalance balance - releaseAmount order)]>
                                (balances db)) saved
                       | None => saved
                       end).
Proof.
  unfold cancelOrder, inTransaction, cancelOrder_body. intros H.
  unfold bind at 1, get in H.
  destruct (List.find _ (orders db)) as [order|] eqn:Hfind; [|rolled_back H].
  destruct (status_is "PLACED" (status order)) eqn:Hplaced; cbn [negb] in H;
    [|rolled_back H].
  destruct (marketPairs db !! marketPairId order) as [marketPair|] eqn:Hpair;
    [|rolled_back H].
  unfold bind at 1 in H.
  destruct (checkCexStatus_inv ex order (baseAsset marketPair +:+ quoteAsset marketPair) db)
    as [[t Hc]|[Hc|[Hc|(msg & Hmsg & Hc)]]]; rewrite Hc in H; clear Hc.
  - rolled_back H.
  - unfold bind at 1, lift in H.
    destruct (cancelOrderOnCEX ex (externalOrderId order) _) as [cancelResponse|t];
      [|rolled_back H].
    destruct (String.eqb (resp_status cancelResponse) "CANCELED"); cbn [negb] in H;
      [|rolled_back H].
    revert H. tx_unfold. cbn [balances set_orders]. unfold row.
    change (releaseToken (set_status (StatusName "CANCELLED") order) marketPair)
      with (releaseToken order marketPair).
    change (releaseAmount (set_status (StatusName "CANCELLED") order))
      with (releaseAmount order).
    intros H. right. exists order, marketPair, "Order canceled successfully"%string,
      "CANCELLED"%string.
    repeat (split; [reflexivity || assumption|]).
    destruct (balances db !! (uid, releaseToken order marketPair));
      injection H as <- <-; (split; [reflexivity|]); right; right; now repeat split.
  - injection H as <- <-. right.
    exists order, marketPair, "Order already filled"%string, "FILLED"%string.
    repeat (split; [reflexivity || assumption|]). left. now repeat split.
  - injection H as <- <-. right. exists order, marketPair, msg, "CANCELLED"%string.
    repeat (split; [reflexivity || assumption|]). right; left. now repeat split.
Qed.

Lemma saved_keeps_ids (order new : TradingOrder) (l : list TradingOrder) :
  id new = id order ->
  map id (map (fun o' => if id o' =? id order then new else o') l) = map id l.
Proof.
  intros Hid. rewrite map_map. apply map_ext. intros o.
  destruct (id o =? id order) eqn:E; [|reflexivity].
  apply Z.eqb_eq in E. congruence.
Qed.

Lemma saved_keeps_others (order new o : TradingOrder) (l : list TradingOrder) :
  id new = id order -> id o <> id order ->
  In o (map (fun o' => if id o' =? id order then new else o') l) -> In o l.
Proof.
  intros Hid Hne Hin. apply in_map_iff in Hin as (x & Hx & Hin).
  destruct (id x =? id order); [|now subst].
  subst o. congruence.
Qed.

Lemma saved_has_new (order new : TradingOrder) (l : list TradingOrder) :
  In order l -> In new (map (fun o' => if id o' =? id order then new else o') l).
Proof.
  intros Hin. apply in_map_iff. exists order. now rewrite Z.eqb_refl.
Qed.

Lemma found_order (uid oid : Z) (l : list TradingOrder) (order : TradingOrder) :
  List.find (fun o => (id o =? oid) && (order_userId o =? uid)) l = Some order ->
  In order l /\ id order = oid /\ order_userId order = uid.
Proof.
  intros H. apply find_some in H as [Hin Hp].
  apply andb_true_iff in Hp as [H1 H2].
  apply Z.eqb_eq in H1, H2. now repeat split.
Qed.

(** X14. What [cancelOrder] never does, whatever the exchange answers and
    however the call ends: it changes no available balance, creates and
    deletes no balance row, touches no row of another user, records no
    trade, and adds or removes no order; an order with another id is left
    as it was. In particular a cancelled reservation is never returned to
    the available balance. *)
Theorem cancelOrder_never_credits (ex : Exchange) (uid oid : Z) (db : Db) :
  let db' := snd (cancelOrder ex uid oid db) in
  (forall u t, availableBalance <$> row db' u t = availableBalance <$> row db u t)
  /\ (forall u t, u <> uid -> row db' u t = row db u t)
  /\ trades db' = trades db
  /\ marketPairs db' = marketPairs db
  /\ map id (orders db') = map id (orders db)
  /\ (forall o, In o (orders db') -> id o <> oid -> In o (orders db)).
Proof.
  cbv zeta. destruct (cancelOrder ex uid oid db) as [r db'] eqn:H. cbn [snd].
  apply cancelOrder_inv in H
    as [[-> _]|(order & marketPair & msg & final & Hfind & _ & _ & _ & Hcase)].
  { repeat split; trivial. }
  apply found_order in Hfind as (Hin & Hid & _). cbv zeta in Hcase.
  assert (Hsaved : forall d, balances d = balances db -> trades d = trades db ->
            marketPairs d = marketPairs db ->
            orders d = map (fun o' => if id o' =? id order
                                      then set_status (StatusName final) order else o')
                           (orders db) ->
            (forall u t, availableBalance <$> row d u t = availableBalance <$> row db u t)
            /\ (forall u t, u <> uid -> row d u t = row db u t)
            /\ trades d = trades db
            /\ marketPairs d = marketPairs db
            /\ map id (orders d) = map id (orders db)
            /\ (forall o, In o (orders d) -> id o <> oid -> In o (orders db))).
  { intros d Hb Ht Hm Ho. unfold row. rewrite Hb, Ho.
    repeat split; trivial.
    - now apply saved_keeps_ids.
    - intros o Hin' Hne. apply (saved_keeps_others order _ o) in Hin'; trivial.
      congruence. }
  destruct Hcase as [(_ & _ & ->)|[(_ & _ & ->)|(_ & _ & ->)]];
    [now apply Hsaved|now apply Hsaved|].
  destruct (row db uid (releaseToken order marketPair)) as [balance|] eqn:Hrow;
    [|now apply Hsaved].
  repeat split; trivial.
  - intros u t. unfold row in *. cbn [balances set_balances set_orders].
    destruct (decide ((uid, releaseToken order marketPair) = (u, t))) as [<-|Hne].
    + rewrite lookup_insert_eq, Hrow. reflexivity.
    + now rewrite lookup_insert_ne.
  - intros u t Hu. unfold row. cbn [balances set_balances set_orders].
    rewrite lookup_insert_ne by congruence. reflexivity.
  - now apply saved_keeps_ids.
  - intros o Hin' Hne. apply (saved_keeps_others order _ o) in Hin'; trivial.
    congruence.
Qed.

(** X15. A [cancelOrder] call that succeeds always concerns an order of
    the caller that was PLACED, and leaves it stored in a final state:
    FILLED exactly when the message is "Order already filled" (and then no
    balance is touched), CANCELLED with one of the three other messages. *)
Theorem cancelOrder_success_is_final (ex : Exchange) (uid oid : Z) (db db' : Db)
    (msg : string) (after : TradingOrder) :
  cancelOrder ex uid oid db = (Fulfilled (msg, after), db') ->
  id after = oid /\ order_userId after = uid
  /\ In after (orders db')
  /\ (exists before,
        In before (orders db) /\ status before = StatusName "PLACED"
        /\ after = set_status (status after) before)
  /\ ((status after = StatusName "FILLED" /\ msg = "Order already filled"%string
       /\ balances db' = balances db)
      \/ (status after = StatusName "CANCELLED"
          /\ (msg = "Order already canceled"%string
              \/ msg = "Order not found on Binance, marked canceled"%string
              \/ msg = "Order canceled successfully"%string))).
Proof.
  intros H.
  apply cancelOrder_inv in H
    as [[_ [e He]]|(order & marketPair & msg' & final & Hfind & Hplaced & _ & Hr & Hcase)];
    [discriminate|].
  injection Hr as -> ->.
  apply found_order in Hfind as (Hin & Hid & Huid). cbv zeta in Hcase.
  split; [exact Hid|]. split; [exact Huid|].
  assert (Hstored : forall d,
            orders d = map (fun o' => if id o' =? id order
                                      then set_status (StatusName final) order else o')
                           (orders db) ->
            In (set_status (StatusName final) order) (orders d)).
  { intros d ->. now apply saved_has_new. }
  assert (Hbefore : exists before,
            In before (orders db) /\ status before = StatusName "PLACED"
            /\ set_status (StatusName final) order
               = set_status (status (set_status (StatusName final) order)) before).
  { exists order. split; [exact Hin|]. split; [|reflexivity].
    unfold status_is in Hplaced. destruct (status order) as [n|]; [|discriminate].
    apply String.eqb_eq in Hplaced. now subst. }
  destruct Hcase as [(-> & -> & ->)|[(-> & Hmsg & ->)|(-> & -> & ->)]].
  - split; [now apply Hstored|]. split; [exact Hbefore|]. left. now repeat split.
  - split; [now apply Hstored|]. split; [exact Hbefore|]. right.
    split; [reflexivity|]. destruct Hmsg as [->| ->]; auto.
  - split; [|split; [exact Hbefore|right; split; [reflexivity|auto]]].
    destruct (row db uid (releaseToken order marketPair)); now apply Hstored.
Qed.

Lemma cancelOrder_success_is_final_witness :
  let ex := Sample.exchange (Sample.answer "NEW") (Sample.answer "FILLED")
                            (Sample.answer "CANCELED") in
  cancelOrder ex 1 1 (Sample.db_with "PLACED")
    = (Fulfilled ("Order already filled"%string, Sample.order "FILLED"),
       Sample.db_with "FILLED")
  /\ In (Sample.order "FILLED") (orders (Sample.db_with "FILLED")).
Proof.
  cbv zeta.
  assert (H : cancelOrder (Sample.exchange (Sample.answer "NEW") (Sample.answer "FILLED")
                                           (Sample.answer "CANCELED"))
                1 1 (Sample.db_with "PLACED")
              = (Fulfilled ("Order already filled"%string, Sample.order "FILLED"),
                 Sample.db_with "FILLED"))
    by (vm_compute; reflexivity).
  split; [exact H|].
  exact (proj1 (proj2 (proj2 (cancelOrder_success_is_final _ _ _ _ _ _ _ H)))).
Defined.

(** X16. A user can cancel only their own orders: when no stored order has
    both the given id and the caller's user id, [cancelOrder] rejects with
    404 "Order not found or access denied" without consulting the exchange,
    and nothing is changed. *)
Theorem cancelOrder_requires_ownership (ex : Exchange) (uid oid : Z) (db : Db) :
  (forall o, In o (orders db) -> id o = oid -> order_userId o <> uid) ->
  cancelOrder ex uid oid db
    = (Failed (mkCustomError "Order not found or access denied" 404), db).
Proof.
  intros Hown. unfold cancelOrder, inTransaction, cancelOrder_body.
  unfold bind at 1, get.
  destruct (List.find _ (orders db)) as [order|] eqn:Hfind; [|reflexivity].
  apply found_order in Hfind as (Hin & Hid & Huid).
  now destruct (Hown order Hin Hid).
Qed.

Lemma cancelOrder_requires_ownership_witness :
  cancelOrder (Sample.exchange (Sample.answer "NEW") (Sample.answer "NEW")
                               (Sample.answer "CANCELED"))
              2 1 (Sample.db_with "PLACED")
    = (Failed (mkCustomError "Order not found or access denied" 404),
       Sample.db_with "PLACED").
Proof.
  apply (cancelOrder_requires_ownership _ 2 1 (Sample.db_with "PLACED")).
  intros o [<-|[]] _. vm_compute. lia.
Defined.

(** X17. When the exchange still knows the order as open but answers the
    cancel request with a status other than CANCELED, [cancelOrder] rejects
    with 502 "CEX did not confirm cancellation"; the order stays PLACED and
    its reservation stays in place. *)
Theorem cancelOrder_unconfirmed_is_502 (ex : Exchange) (uid oid : Z) (db : Db)
    (order : TradingOrder) (marketPair : MarketPair)
    (resp cancelResponse : CEXOrderResponse) :
  let symbol := baseAsset marketPair +:+ quoteAsset marketPair in
  List.find (fun o => (id o =? oid) && (order_userId o =? uid)) (orders db) = Some order ->
  status order = StatusName "PLACED" ->
  marketPairs db !! marketPairId order = Some marketPair ->
  getOrder ex (externalOrderId order) (Some symbol) = Resolved resp ->
  resp_status resp <> "FILLED"%string ->
  resp_status resp <> "CANCELED"%string ->
  deleteOrder ex (externalOrderId order) symbol = Resolved cancelResponse ->
  resp_status cancelResponse <> "CANCELED"%string ->
  cancelOrder ex uid oid db
    = (Failed (mkCustomError "CEX did not confirm cancellation" 502), db).
Proof.
  intros symbol Hfind Hst Hpair Hget Hnf Hnc Hdel Hncc.
  apply String.eqb_neq in Hnf, Hnc, Hncc.
  unfold cancelOrder, inTransaction, cancelOrder_body.
  unfold bind at 1, get. rewrite Hfind, Hst, Hpair. cbn [status_is negb].
  change (String.eqb "PLACED" "PLACED") with true. cbn [negb].
  unfold checkCexStatus, getOrderStatusFromCEX, cancelOrderOnCEX.
  fold symbol. rewrite Hget. tx_unfold. rewrite Hnf, Hnc, Hdel, Hncc. reflexivity.
Qed.

Lemma cancelOrder_unconfirmed_is_502_witness :
  cancelOrder (Sample.exchange (Sample.answer "NEW") (Sample.answer "NEW")
                               (Sample.answer "PENDING_CANCEL"))
              1 1 (Sample.db_with "PLACED")
    = (Failed (mkCustomError "CEX did not confirm cancellation" 502),
       Sample.db_with "PLACED").
Proof.
  apply (cancelOrder_unconfirmed_is_502 _ 1 1 (Sample.db_with "PLACED")
           (Sample.order "PLACED") Sample.pair
           (mkResponse "12345" "NEW" (Some "0.1"%string) (Some "50000"%string))
           (mkResponse "12345" "PENDING_CANCEL" (Some "0.1"%string)
                       (Some "50000"%string)));
    solve [reflexivity | discriminate].
Defined.

(** ** Listing orders *)

(** X19. [getOrders] lists only orders of the asking user that are stored
    and match the given status and market-pair filters; [total] counts all
    such orders, whatever window is asked for, and the window returned is
    never longer than [total] nor than the limit. *)
Theorem getOrders_only_own_matching (uid : Z) (filters : OrderFilters)
    (pagination : Pagination) (db : Db) :
  let result := getOrders uid filters pagination db in
  (forall o, In o (result_orders result) ->
     In o (orders db) /\ order_userId o = uid
     /\ (forall s, filter_status filters = Some s -> status o = StatusName s)
     /\ (forall m, filter_marketPairId filters = Some m -> marketPairId o = m))
  /\ result_total result
     = length (List.filter (order_matches uid filters) (orders db))
  /\ (length (result_orders result) <= result_total result)%nat
  /\ (forall n, limit pagination = Some n -> (length (result_orders result) <= n)%nat).
Proof.
  cbv zeta. unfold getOrders. cbn [result_orders result_total].
  set (rows := List.filter (order_matches uid filters) (rev (orders db))).
  assert (Hsub : forall o, In o (paginate pagination rows) -> In o rows).
  { intros o. unfold paginate. rewrite <- !list_elem_of_In.
    destruct (limit pagination); intros Hin.
    - apply elem_of_take in Hin as (i & Hi & _). apply list_elem_of_lookup_2 in Hi.
      revert Hi. apply subseteq_drop.
    - revert Hin. apply subseteq_drop. }
  split; [|split; [|split]].
  - intros o Hin. apply Hsub in Hin. unfold rows in Hin.
    apply filter_In in Hin as [Hin Hm]. apply in_rev in Hin.
    unfold order_matches in Hm.
    apply andb_true_iff in Hm as [Hm Hpair]. apply andb_true_iff in Hm as [Hu Hst].
    apply Z.eqb_eq in Hu. repeat split; trivial.
    + intros s Hs. rewrite Hs in Hst. unfold status_is in Hst.
      destruct (status o) as [n|]; [|discriminate].
      apply String.eqb_eq in Hst. now subst.
    + intros m Hm. rewrite Hm in Hpair. now apply Z.eqb_eq in Hpair.
  - unfold rows. clear. induction (orders db) as [|a l IH]; [reflexivity|].
    cbn [rev List.filter]. rewrite List.filter_app, length_app, IH. cbn [List.filter].
    destruct (order_matches uid filters a); cbn [length]; lia.
  - unfold paginate. destruct (limit pagination).
    + rewrite length_take, length_drop. lia.
    + rewrite length_drop. lia.
  - intros n Hn. unfold paginate. rewrite Hn, length_take. lia.
Qed.

(** X20. [syncBalancesFromCEX] hides why it failed: although
    [getAccountBalanceFromCEX] keeps the exchange's message and HTTP status
    in the error it throws, every failure of the synchronisation, also a
    response without a balance list, is reported as 500 "Failed to sync
    balances from Binance". When it succeeds the count it reports is the
    number of listed assets with a positive free or locked amount. *)
Theorem syncBalances_hides_upstream_error (answer : Http (option (list CEXBalance)))
    (uid : Z) :
  (forall error, answer = Rejected error ->
     getAccountBalanceFromCEX answer
       = Throw (Custom (mkCustomError
                  (str_or (ax_msg error) "Failed to fetch account balance from Binance")
                  (status_or_500 error))))
  /\ match syncBalancesFromCEX answer uid with
     | Return result =>
         exists listed,
           answer = Resolved (Some listed)
           /\ sync_status result = "success"%string
           /\ sync_count result = length (List.filter nonZero listed)
           /\ (sync_count result <= length listed)%nat
     | Throw t => t = Custom (mkCustomError "Failed to sync balances from Binance" 500)
     end.
Proof.
  split; [now intros error ->|].
  unfold syncBalancesFromCEX, getAccountBalanceFromCEX.
  destruct answer as [[listed|]|error]; trivial.
  exists listed. repeat split. cbn [sync_count]. apply List.filter_length_le.
Qed.

(** ** A fill reported on submission *)

(** X21. When the exchange reports the order FILLED on submission, for a
    BUY as for a SELL, [createOrder] cannot finish: the trade row it records
    leaves out the required [total], [fee] and [feeCurrency] and is refused,
    so the transaction is rolled back, reservation and pending order
    included, and the call rejects with status 500 and a message starting
    with "Failed to place order: ". The tables are as before, although the
    exchange has executed the order. *)
Theorem immediate_fill_is_rolled_back (ex : Exchange) (uid mpid : Z) (side : OrderType)
    (style : ExecutionType) (price : option float) (requested : float)
    (db db1 : Db) (prep : Prepared) (resp : CEXOrderResponse) :
  prepareOrder ex uid mpid style price requested db = Return (prep, db) ->
  validateUserBalance uid (p_marketPair prep) side (p_adjustedPrice prep)
    (p_adjustedQuantity prep) db = Return (tt, db1) ->
  placeOrderOnCEX ex side (p_symbol prep) style (Some (p_adjustedPrice prep))
    (p_adjustedQuantity prep) = Return resp ->
  resp_status resp = "FILLED"%string ->
  exists detail,
    createOrder ex uid mpid side style price requested db =
      (Failed (mkCustomError ("Failed to place order: " +:+ detail) 500), db).
Proof.
  intros Hprep Hres Hex Hst.
  rewrite (createOrder_prepared _ _ _ _ _ _ _ _ _ Hprep).
  unfold inTransaction.
  rewrite (submitOrder_filled_refused ex uid mpid side style prep db db1 resp Hres Hex Hst).
  eexists. reflexivity.
Qed.

Lemma immediate_fill_is_rolled_back_witness :
  exists detail,
    createOrder (Sample.exchange (Sample.answer "FILLED") (Sample.answer "NEW")
                                 (Sample.answer "CANCELED"))
                1 1 SELL MARKET None 0.5%float Sample.db =
      (Failed (mkCustomError ("Failed to place order: " +:+ detail) 500), Sample.db).
Proof.
  apply (immediate_fill_is_rolled_back
           (Sample.exchange (Sample.answer "FILLED") (Sample.answer "NEW")
                            (Sample.answer "CANCELED"))
           1 1 SELL MARKET None 0.5%float Sample.db
           (set_balances (<[(1, "BTC"%string) := mkBalance 0.5 0.5]> (balances Sample.db))
                         Sample.db)
           (mkPrepared Sample.pair "BTCUSDT" 50000 0.5)
           (mkResponse "12345" "FILLED" (Some "0.1"%string) (Some "50000"%string)));
    vm_compute; reflexivity.
Defined.
